(** * review_bot: a shallow embedding of [app/app.go] (check runners, log
    parsers, webhook flows) and the properties of its specification.

    Go strings are byte strings; they are modelled as [string] (lists of
    8-bit [ascii]).  The parts of the Go standard library the parsers rely
    on ([bufio.Scanner] with [ScanLines], [strings.TrimSpace],
    [strings.Split], [strings.HasPrefix], [regexp] for the two patterns of
    the file, [strconv.Atoi], the [%q] verb and [path/filepath.Rel]) are
    modelled first, from their Go implementations. *)

From Stdlib Require Import String Ascii List Bool Arith ZArith Lia.
From Stdlib Require Import Numbers.DecimalString.
Import ListNotations.
Open Scope string_scope.

(* ================================================================== *)
(** ** Bytes and small string helpers *)

Definition byte_of (c : ascii) : nat := nat_of_ascii c.

Definition bytes (l : list nat) : string :=
  string_of_list_ascii (map ascii_of_nat l).

Definition chr (n : nat) : string := String (ascii_of_nat n) EmptyString.

(** The double quote and the backslash, as one-byte strings. *)
Definition dq : string := chr 34.
Definition bs : string := chr 92.

(** [strings.HasPrefix(s, prefix)] *)
Definition HasPrefix (s pre : string) : bool := String.prefix pre s.

(** [s[i:j]] on byte lists. *)
Definition slice {A} (l : list A) (i j : nat) : list A :=
  firstn (j - i) (skipn i l).

(** Up to, and not including, the first ['\n']: what a [.*] matches. *)
Fixpoint take_line (s : string) : string :=
  match s with
  | EmptyString => EmptyString
  | String c r =>
      if Ascii.eqb c (ascii_of_nat 10) then EmptyString
      else String c (take_line r)
  end.

Fixpoint list_prefixb (p l : list ascii) : bool :=
  match p, l with
  | [], _ => true
  | a :: p', b :: l' => Ascii.eqb a b && list_prefixb p' l'
  | _ :: _, [] => false
  end.

(** Decimal rendering of a non-negative count ([%d]). *)
Definition itoa (n : nat) : string := NilEmpty.string_of_uint (Nat.to_uint n).

(* ================================================================== *)
(** ** [strings.TrimSpace]

    Go trims the Unicode white space of both ends: the ASCII bytes
    ['\t' '\n' '\v' '\f' '\r' ' '] and the UTF-8 encodings of U+0085,
    U+00A0, U+1680, U+2000..U+200A, U+2028, U+2029, U+202F, U+205F and
    U+3000.  A lone byte >= 0x80 that is not part of such an encoding
    decodes to [utf8.RuneError] and is not space. *)

Definition is_ascii_space (c : ascii) : bool :=
  match byte_of c with
  | 9 | 10 | 11 | 12 | 13 | 32 => true
  | _ => false
  end.

Definition unicode_space_seqs : list (list ascii) :=
  map (fun l => map ascii_of_nat l)
    ([[194; 133]; [194; 160]; [225; 154; 128]]
     ++ map (fun k => [226; 128; 128 + k]) (seq 0 11)
     ++ [[226; 128; 168]; [226; 128; 169]; [226; 128; 175];
         [226; 129; 159]; [227; 128; 128]]).

(** One leading white-space rune of [l], if any: its length in bytes. *)
Definition leading_space (l : list ascii) : option nat :=
  match l with
  | [] => None
  | c :: _ =>
      if is_ascii_space c then Some 1
      else match find (fun p => list_prefixb p l) unicode_space_seqs with
           | Some p => Some (length p)
           | None => None
           end
  end.

(** One trailing white-space rune of [l] (read on [rev l]). *)
Definition trailing_space (rl : list ascii) : option nat :=
  match rl with
  | [] => None
  | c :: _ =>
      if is_ascii_space c then Some 1
      else match find (fun p => list_prefixb (rev p) rl) unicode_space_seqs with
           | Some p => Some (length p)
           | None => None
           end
  end.

(** Each round drops at least one byte, so [length l] rounds suffice. *)
Fixpoint trim_left_n (fuel : nat) (l : list ascii) : list ascii :=
  match fuel with
  | O => l
  | S f =>
      match leading_space l with
      | Some k => trim_left_n f (skipn k l)
      | None => l
      end
  end.

Fixpoint trim_right_rev_n (fuel : nat) (rl : list ascii) : list ascii :=
  match fuel with
  | O => rl
  | S f =>
      match trailing_space rl with
      | Some k => trim_right_rev_n f (skipn k rl)
      | None => rl
      end
  end.

Definition TrimSpace (s : string) : string :=
  let l := list_ascii_of_string s in
  let l1 := trim_left_n (length l) l in
  let rl := rev l1 in
  string_of_list_ascii (rev (trim_right_rev_n (length rl) rl)).

(* ================================================================== *)
(** ** [strings.Split(s, sep)] for a one-byte separator *)

Fixpoint split_char (sep : ascii) (s : string) : list string :=
  match s with
  | EmptyString => [EmptyString]
  | String c r =>
      if Ascii.eqb c sep then EmptyString :: split_char sep r
      else match split_char sep r with
           | [] => [String c EmptyString]
           | x :: xs => String c x :: xs
           end
  end.

Definition Split (s : string) (sep : ascii) : list string := split_char sep s.

(* ================================================================== *)
(** ** [bufio.Scanner] with [bufio.ScanLines] over a [bytes.Buffer]

    Tokens are the lines of the input without their ['\n'] and without a
    ['\r'] right before it; a last line with no ['\n'] is a token when it
    is non-empty.  The buffer grows up to [MaxScanTokenSize] (64 KiB): a
    line whose bytes, with its ['\n'], do not fit stops the scan with
    [ErrTooLong], which the callers never inspect, so scanning just ends. *)

Definition MaxScanTokenSize : nat := 64 * 1024.

(** Split at the first ['\n']: the line and, if there was one, the rest. *)
Fixpoint break_nl (s : string) : string * option string :=
  match s with
  | EmptyString => (EmptyString, None)
  | String c r =>
      if Ascii.eqb c (ascii_of_nat 10) then (EmptyString, Some r)
      else let (p, rest) := break_nl r in (String c p, rest)
  end.

(** [dropCR] *)
Definition dropCR (s : string) : string :=
  let l := list_ascii_of_string s in
  match rev l with
  | c :: rl => if Ascii.eqb c (ascii_of_nat 13)
               then string_of_list_ascii (rev rl) else s
  | [] => s
  end.

Fixpoint scan_lines_n (fuel : nat) (s : string) : list string :=
  match fuel with
  | O => []
  | S f =>
      match s with
      | EmptyString => []
      | String _ _ =>
          match break_nl s with
          | (piece, Some rest) =>
              if Nat.leb (String.length piece + 1) MaxScanTokenSize
              then dropCR piece :: scan_lines_n f rest
              else []
          | (piece, None) =>
              if Nat.ltb (String.length piece) MaxScanTokenSize then [dropCR piece] else []
          end
      end
  end.

(** The successive values of [scanner.Text()] while [scanner.Scan()]. *)
Definition scan_lines (s : string) : list string := scan_lines_n (String.length s) s.

(* ================================================================== *)
(** ** The [%q] verb ([strconv.Quote]) *)

(** Go puts a backslash before the double quote and the backslash,
    writes the bytes 0x20..0x7E as they are,
    uses [\a \b \f \n \r \t \v] for those controls and [\xhh] (lower-case
    hex) for the other ASCII controls and 0x7F.  Bytes >= 0x80 are kept as
    they are, which is what Go does for well-formed printable UTF-8; Go's
    escapes for ill-formed or non-printable UTF-8 are not modelled, and no
    statement below depends on them. *)
Definition hexdig (n : nat) : string :=
  if Nat.ltb n 10 then chr (48 + n) else chr (87 + n).

Definition quote_byte (c : ascii) : string :=
  let n := byte_of c in
  if Nat.eqb n 34 then bs ++ dq
  else if Nat.eqb n 92 then bs ++ bs
  else if Nat.leb 32 n && Nat.ltb n 127 then String c EmptyString
  else if Nat.eqb n 7 then bs ++ "a"
  else if Nat.eqb n 8 then bs ++ "b"
  else if Nat.eqb n 12 then bs ++ "f"
  else if Nat.eqb n 10 then bs ++ "n"
  else if Nat.eqb n 13 then bs ++ "r"
  else if Nat.eqb n 9 then bs ++ "t"
  else if Nat.eqb n 11 then bs ++ "v"
  else if Nat.ltb n 128 then bs ++ "x" ++ hexdig (n / 16) ++ hexdig (n mod 16)
  else String c EmptyString.

Fixpoint quote_bytes (s : string) : string :=
  match s with
  | EmptyString => EmptyString
  | String c r => quote_byte c ++ quote_bytes r
  end.

(** [strconv.Quote(s)], i.e. [fmt.Sprintf("%q", s)]. *)
Definition Quote (s : string) : string := dq ++ quote_bytes s ++ dq.

(* ================================================================== *)
(** ** [strconv.Atoi] on the digit runs the pattern [\d+] captures

    A run of ASCII digits parses to its value when it fits in a 64-bit
    [int]; otherwise [ParseInt] reports [ErrRange] and Atoi returns the
    clamped value [2^63 - 1] together with the error. *)

Fixpoint digits_value (acc : Z) (s : string) : Z :=
  match s with
  | EmptyString => acc
  | String c r => digits_value (acc * 10 + (Z.of_nat (byte_of c) - 48))%Z r
  end.

Definition MaxInt : Z := (2 ^ 63 - 1)%Z.

Definition Atoi (s : string) : Z * option string :=
  let v := digits_value 0 s in
  if Z.leb v MaxInt then (v, None)
  else (MaxInt, Some ("strconv.Atoi: parsing " ++ Quote s ++ ": value out of range")).

(* ================================================================== *)
(** ** The two regular expressions of the file

    Go's [regexp] is leftmost-first: among the matches starting earliest
    it picks the one a backtracking matcher finds first.  Neither pattern
    can match a ['\n'] with [.]; [\d] is [[0-9]]. *)

Definition is_digit (c : ascii) : bool :=
  let n := byte_of c in Nat.leb 48 n && Nat.leb n 57.

(** The longest run of digits at the head of [s], and what follows. *)
Fixpoint span_digits (s : string) : string * string :=
  match s with
  | EmptyString => (EmptyString, EmptyString)
  | String c r =>
      if is_digit c then let (d, rest) := span_digits r in (String c d, rest)
      else (EmptyString, s)
  end.

Definition colon : ascii := ascii_of_nat 58.

(** The tail [:(?P<line>\d+):(?P<col>\d+):] then the [comment] group
    [.*], at the head of [s].
    A greedy [\d+] can only be followed by [:] at the end of its longest
    run, so backtracking into it never helps. *)
Definition tail_match (s : string) : option (string * string * string) :=
  match s with
  | String c1 r1 =>
      if Ascii.eqb c1 colon then
        let (d1, r2) := span_digits r1 in
        match d1, r2 with
        | String _ _, String c2 r3 =>
            if Ascii.eqb c2 colon then
              let (d2, r4) := span_digits r3 in
              match d2, r4 with
              | String _ _, String c3 r5 =>
                  if Ascii.eqb c3 colon then Some (d1, d2, take_line r5) else None
              | _, _ => None
              end
            else None
        | _, _ => None
        end
      else None
  | EmptyString => None
  end.

(** [lineCommentRegex.FindStringSubmatch(s)], the pattern being [^], a
    [file] group [.*], then [:(?P<line>\d+):(?P<col>\d+):] and a
    [comment] group [.*]: the groups [(file, line, col, comment)].  The greedy [file] group takes the
    latest split point (before any ['\n']) where the tail matches. *)
Fixpoint lineCommentMatch (s : string) : option (string * string * string * string) :=
  match s with
  | EmptyString => None
  | String c r =>
      match (if Ascii.eqb c (ascii_of_nat 10) then None else lineCommentMatch r) with
      | Some (file, ln, col, cm) => Some (String c file, ln, col, cm)
      | None =>
          match tail_match s with
          | Some (ln, col, cm) => Some (EmptyString, ln, col, cm)
          | None => None
          end
      end
  end.

Definition url_literal : string := "Streaming build results to: ".

(** [urlRegex.FindStringSubmatch(s)], the pattern being the literal
    [Streaming build results to: ] then a [url] group [.*]: the [url]
    group of the leftmost occurrence. *)
Fixpoint urlMatch (s : string) : option string :=
  match s with
  | EmptyString => None
  | String _ r =>
      if String.prefix url_literal s
      then Some (take_line (substring (String.length url_literal) (String.length s) s))
      else urlMatch r
  end.

(* ================================================================== *)
(** ** [path/filepath.Clean] and [path/filepath.Rel] on Unix *)

(** Element-wise form of Go's lexical [Clean]: drop empty and [.]
    elements, let [..] remove the element before it (or vanish at the
    root of a rooted path, or stay at the head of a relative one). *)
Fixpoint clean_elems (rooted : bool) (out : list string) (es : list string) : list string :=
  match es with
  | [] => out
  | e :: es' =>
      if String.eqb e "" || String.eqb e "." then clean_elems rooted out es'
      else if String.eqb e ".." then
        match out with
        | x :: out' =>
            if String.eqb x ".." then clean_elems rooted (".." :: out) es'
            else clean_elems rooted out' es'
        | [] => if rooted then clean_elems rooted [] es' else clean_elems rooted [".."] es'
        end
      else clean_elems rooted (e :: out) es'
  end.

Fixpoint join_slash (es : list string) : string :=
  match es with
  | [] => EmptyString
  | [e] => e
  | e :: es' => e ++ "/" ++ join_slash es'
  end.

Definition Clean (p : string) : string :=
  let rooted := HasPrefix p "/" in
  let body := join_slash (rev (clean_elems rooted [] (Split p "/"%char))) in
  if rooted then "/" ++ body
  else if String.eqb body "" then "." else body.

Definition Separator : ascii := "/"%char.

(** [for i < len(s) && s[i] != Separator { i++ }] *)
Fixpoint adv (fuel : nat) (s : list ascii) (i : nat) : nat :=
  match fuel with
  | O => i
  | S f =>
      match nth_error s i with
      | Some c => if Ascii.eqb c Separator then i else adv f s (S i)
      | None => i
      end
  end.

Definition sliceb (s : list ascii) (i j : nat) : string :=
  string_of_list_ascii (slice s i j).

(** The outer [for] of [Rel], positioning [base[b0:bi]] and
    [targ[t0:ti]] at the first differing elements.  Every round but the
    last moves [bi] or [ti], so [1 + len(base) + len(targ)] rounds
    suffice. *)
Fixpoint rel_loop (fuel : nat) (base targ : list ascii) (b0 bi t0 ti : nat)
  : nat * nat * nat * nat :=
  match fuel with
  | O => (b0, bi, t0, ti)
  | S f =>
      let bi := adv (length base) base bi in
      let ti := adv (length targ) targ ti in
      if negb (String.eqb (sliceb targ t0 ti) (sliceb base b0 bi)) then (b0, bi, t0, ti)
      else
        let bi := if Nat.ltb bi (length base) then S bi else bi in
        let ti := if Nat.ltb ti (length targ) then S ti else ti in
        rel_loop f base targ bi bi ti ti
  end.

(** [filepath.Rel(basepath, targpath)]: the relative path, and the error
    (on error the path is [""]). *)
Definition Rel (basepath targpath : string) : string * option string :=
  let err := Some ("Rel: can't make " ++ targpath ++ " relative to " ++ basepath) in
  let base := Clean basepath in
  let targ := Clean targpath in
  if String.eqb targ base then (".", None) else
  let base := if String.eqb base "." then EmptyString else base in
  let baseSlashed := HasPrefix base "/" in
  let targSlashed := HasPrefix targ "/" in
  if negb (Bool.eqb baseSlashed targSlashed) then (EmptyString, err) else
  let b := list_ascii_of_string base in
  let t := list_ascii_of_string targ in
  let bl := length b in
  let tl := length t in
  match rel_loop (S (bl + tl)) b t 0 0 0 0 with
  | (b0, bi, t0, ti) =>
      if String.eqb (sliceb b b0 bi) ".." then (EmptyString, err)
      else if negb (Nat.eqb b0 bl) then
        let seps := count_occ ascii_dec (slice b b0 bl) Separator in
        (".." ++ String.concat "" (repeat "/.." seps)
              ++ (if negb (Nat.eqb t0 tl) then "/" ++ sliceb t t0 tl else EmptyString), None)
      else (sliceb t t0 tl, None)
  end.

(* ================================================================== *)
(** ** Data model ([Result], [Action], [Annotation], [GitRef]) *)

Definition inProgress : string := "in_progress".
Definition buildifierCheck : string := "buildifier".
Definition buildifierFix : string := "buildifier-fix".
Definition nogoCheck : string := "bazel".
Definition checks : list string := ["buildifier"; "bazel"].

Record Annotation := mkAnnotation {
  Message : string;
  Line : Z;          (* Go [int] *)
  Path : string;
  Severity : string }.

Record Action := mkAction {
  Label : string;
  Description : string;
  Identifier : string }.

(** [Annotations] is [nil] in Go when the runner never assigns it; the
    empty list here.  The [Action] field ([*Action]) is [Action_]. *)
Record Result := mkResult {
  Title : string;
  Summary : string;
  Conclusion : string;
  Annotations : list Annotation;
  URL : string;
  Action_ : option Action }.

Record GitRef := mkGitRef { hash : string; branch : string }.

Record GithubApp := mkGithubApp {
  appID : Z;
  webhookSecret : string;
  bbAPIKey : string }.

Definition set_summary (s c : string) (r : Result) : Result :=
  mkResult (Title r) s c (Annotations r) (URL r) (Action_ r).
Definition set_annotations (a : list Annotation) (r : Result) : Result :=
  mkResult (Title r) (Summary r) (Conclusion r) a (URL r) (Action_ r).
Definition set_url (u : string) (r : Result) : Result :=
  mkResult (Title r) (Summary r) (Conclusion r) (Annotations r) u (Action_ r).
Definition set_action (a : Action) (r : Result) : Result :=
  mkResult (Title r) (Summary r) (Conclusion r) (Annotations r) (URL r) (Some a).

(** [&Result{Title: t}] *)
Definition new_result (t : string) : Result := mkResult t "" "" [] "" None.

(** [getTmpDir] *)
Definition getTmpDir (fullRepoName checkName : string) : string :=
  "/tmp/" ++ fullRepoName ++ "/" ++ checkName.

(* ================================================================== *)
(** ** The environment: what the outside world answers

    Subprocesses, the file system, git and the GitHub API are outside the
    repository; an [Env] fixes their answers.  A subprocess run gives its
    captured stdout and stderr and the error of [cmd.Run()]. *)

Record Proc := mkProc { stdout : string; stderr : string; perr : option string }.

(** [w.Pull]: [NoErrAlreadyUpToDate] is not a failure for [cloneRepo]. *)
Inductive PullResult := PullOk | PullUpToDate | PullErr (e : string).

(** The options of [UpdateCheckRun] the flows build. *)
Record CheckRunOptions := mkOpts {
  o_name : string;
  o_status : string;
  o_conclusion : option string;
  o_output : option (string * string * list Annotation);
  o_detailsURL : option string;
  o_actions : list Action }.

Record Env := mkEnv {
  run : string -> list string -> Proc;        (* exec.Command(tool, args...).Run() *)
  getwd_err : option string;                  (* os.Getwd *)
  chdir_err : string -> option string;        (* os.Chdir(dir) *)
  removeall_err : string -> option string;    (* os.RemoveAll of an existing dir *)
  token_res : string * option string;         (* app.Token(ctx, installationID) *)
  update_err : CheckRunOptions -> option string; (* UpdateCheckRun + extractError *)
  clone_err : option string;                  (* git.PlainCloneContext *)
  worktree_err : option string;               (* r.Worktree() *)
  pull_res : PullResult;                      (* w.Pull *)
  checkout_err : option string;               (* w.Checkout *)
  look_path : string -> option string }.      (* exec.LookPath(toolName), in exec.Command *)

(** The process state the flows touch: the working directory, the
    directories on disk that the flows create, and the log. *)
Record St := mkSt { cwd : string; fs : list string; logs : list string }.

(* ================================================================== *)
(** ** A state monad *)

Definition M (A : Type) : Type := St -> A * St.

Definition ret {A} (a : A) : M A := fun s => (a, s).
Definition bind {A B} (m : M A) (k : A -> M B) : M B :=
  fun s => let (a, s') := m s in k a s'.

Notation "x <- m ;; k" := (bind m (fun x => k))
  (at level 61, m at next level, right associativity).
Notation "' p <- m ;; k" := (bind m (fun x => match x with p => k end))
  (at level 61, p pattern, m at next level, right associativity).
Notation "m ;; k" := (bind m (fun _ => k)) (at level 61, right associativity).

(** [log.Printf] *)
Definition log_printf (msg : string) : M unit :=
  fun s => (tt, mkSt (cwd s) (fs s) (logs s ++ [msg])).

Definition log_all (msgs : list string) : M unit :=
  fun s => (tt, mkSt (cwd s) (fs s) (logs s ++ msgs)).

Definition log_err (prefix : string) (e : option string) : M unit :=
  match e with Some m => log_printf (prefix ++ m) | None => ret tt end.

Definition mem (x : string) (l : list string) : bool := existsb (String.eqb x) l.

Section Program.

Variable env : Env.

(** [os.Getwd] *)
Definition os_Getwd : M (string * option string) :=
  fun s => match getwd_err env with
           | Some e => ((EmptyString, Some e), s)
           | None => ((cwd s, None), s)
           end.

(** [os.Chdir] *)
Definition os_Chdir (d : string) : M (option string) :=
  fun s => match chdir_err env d with
           | Some e => (Some e, s)
           | None => (None, mkSt d (fs s) (logs s))
           end.

(** [os.RemoveAll]: a path that does not exist is not an error. *)
Definition os_RemoveAll (d : string) : M (option string) :=
  fun s => if mem d (fs s) then
             match removeall_err env d with
             | Some e => (Some e, s)
             | None => (None, mkSt (cwd s) (filter (fun x => negb (String.eqb x d)) (fs s)) (logs s))
             end
           else (None, s).

(** The directory [git.PlainCloneContext] creates. *)
Definition mkdir (d : string) : M unit :=
  fun s => (tt, mkSt (cwd s) (if mem d (fs s) then fs s else fs s ++ [d]) (logs s)).

(** [cmd.Path] of [exec.Command(toolName, ...)] for a tool name without a
    slash: the path [exec.LookPath] resolves, or the name itself when the
    lookup fails.  [%q] of the [*exec.Cmd] prints [cmd.String()]: this
    path followed by the arguments, joined by spaces (on a failed lookup
    [cmd.Args] joined, which starts with the same name). *)
Definition cmd_path (toolName : string) : string :=
  match look_path env toolName with Some p => p | None => toolName end.

(** [runCmd]: a non-empty stderr suppresses the error of [cmd.Run()]. *)
Definition runCmd (toolName : string) (arg : list string) : M (string * string * option string) :=
  let p := run env toolName arg in
  log_err ("check failed for cmd " ++ Quote (String.concat " " (cmd_path toolName :: arg)) ++ ": ") (perr p) ;;
  if Nat.ltb 0 (String.length (stderr p)) then
    log_printf ("output: " ++ stdout p ++ ", " ++ stderr p) ;;
    ret (stdout p, stderr p, None)
  else ret (stdout p, stderr p, perr p).

(* ------------------------------------------------------------------ *)
(** *** [checkBuildifier] *)

(** The loop state of [checkBuildifier]: [annotations] and the log lines
    the loop prints. *)
Record FLoop := mkFLoop { f_annotations : list Annotation; f_logs : list string }.

(** One [scanner.Scan()] round of [checkBuildifier]. *)
Definition buildifier_step (dir : string) (st : FLoop) (line : string) : FLoop :=
  let lg := app (f_logs st) ["scanner: " ++ Quote line] in
  match Split line "#"%char with
  | [] => mkFLoop (f_annotations st) lg
  | part0 :: _ =>
      let '(rel, err) := Rel dir (TrimSpace part0) in
      let lg := match err with
                | Some e => app lg ["failed to get reletive path: " ++ e]
                | None => lg
                end in
      mkFLoop (f_annotations st ++
               [mkAnnotation ("file " ++ Quote rel ++ " needs reformat") 1 rel "failure"])
              lg
  end.

Definition buildifier_loop (dir : string) (lines : list string) : FLoop :=
  fold_left (buildifier_step dir) lines (mkFLoop [] []).

(** After the loop: [if len(annotations) > 0 { ... } else { ... }]. *)
Definition buildifier_finish (res : Result) (annotations : list Annotation) : Result :=
  if Nat.ltb 0 (length annotations) then
    set_action (mkAction "Fix this" "Automatically fix buildifier errors." buildifierFix)
      (set_annotations annotations
        (set_summary (itoa (length annotations) ++ " BUILD files need reformat") "failure" res))
  else set_summary "No issues found." "success" res.

Definition checkBuildifier (_ : GithubApp) (dir : string) : M (option Result * option string) :=
  '(_, stdErr, err) <- runCmd "buildifier" ["--mode=check"; "-r"; dir] ;;
  let res := new_result "Buildifier Lint Result" in
  let scan := fun res =>
    let st := buildifier_loop dir (scan_lines stdErr) in
    log_all (f_logs st) ;;
    ret (Some (buildifier_finish res (f_annotations st)), None) in
  if Nat.eqb (String.length stdErr) 0 then
    match err with
    | Some e => ret (None, Some e)
    | None => scan (set_summary "No issues found." "success" res)
    end
  else scan res.

(* ------------------------------------------------------------------ *)
(** *** [checkBazelBuild] *)

(** The loop state of [checkBazelBuild]: [annotations], [url], the dedup
    set [m] (a [map[string]struct{}], here the list of its keys) and the
    log lines the loop prints. *)
Record BLoop := mkBLoop {
  b_annotations : list Annotation;
  b_url : string;
  b_m : list string;
  b_logs : list string }.

Definition is_noise (line : string) : bool :=
  HasPrefix line "ERROR: " || HasPrefix line "INFO: " || HasPrefix line "FAILED: ".

(** One [scanner.Scan()] round of [checkBazelBuild]. *)
Definition bazel_step (st : BLoop) (raw : string) : BLoop :=
  let line := TrimSpace raw in
  (* check url *)
  let st := if String.eqb (b_url st) "" then
              match urlMatch line with
              | Some u => mkBLoop (b_annotations st) u (b_m st)
                                  (b_logs st ++ ["find url: " ++ Quote u])
              | None => st
              end
            else st in
  (* check errors *)
  if is_noise line then st else
  match lineCommentMatch line with
  | None => st
  | Some (file, lineNumStr, _, comment) =>
      if mem line (b_m st) then st else
      let '(lineNum, err) := Atoi lineNumStr in
      let lg := match err with
                | Some _ => app (b_logs st) ["unable to parse string " ++ Quote lineNumStr ++ " to int"]
                | None => b_logs st
                end in
      mkBLoop (b_annotations st ++ [mkAnnotation comment lineNum file "failure"])
              (b_url st) (line :: b_m st) (lg ++ [line])
  end.

Definition bazel_init : BLoop := mkBLoop [] "" [] [].

Definition bazel_loop (lines : list string) : BLoop := fold_left bazel_step lines bazel_init.

(** After the loop. *)
Definition bazel_finish (res : Result) (st : BLoop) : Result :=
  set_url (b_url st)
    (if Nat.eqb (length (b_annotations st)) 0
     then set_summary "No issues found." "success" res
     else set_annotations (b_annotations st)
            (set_summary "Build doesn't complete successfully" "failure" res)).

Definition checkBazelBuild (app : GithubApp) (dir : string) : M (option Result * option string) :=
  '(curDir, e) <- os_Getwd ;;
  match e with
  | Some _ => ret (None, Some "failed to get current directory")
  | None =>
    e <- os_Chdir dir ;;
    match e with
    | Some e => ret (None, Some ("failed to change directory to " ++ Quote dir ++ ": " ++ e))
    | None =>
      '(stdOut, _, err) <- runCmd "bb" ["build"; "//..."; "--remote_header=x-buildbuddy-api-key=" ++ bbAPIKey app] ;;
      if Nat.eqb (String.length stdOut) 0 then ret (None, err) else
      let st := bazel_loop (scan_lines stdOut) in
      log_all (b_logs st) ;;
      let res := bazel_finish (new_result "Build result") st in
      e <- os_Chdir curDir ;;
      match e with
      | Some e => ret (None, Some ("failed to change directory to " ++ Quote curDir ++ ": " ++ e))
      | None => ret (Some res, None)
      end
    end
  end.

(** [type checkFn]: a runner takes the app and the directory and returns
    a [Result] pointer (here an option) and an error. *)
Definition checkFn : Type := GithubApp -> string -> M (option Result * option string).

(** [GetCheckFn] *)
Definition GetCheckFn (checkName : string) : option checkFn * option string :=
  if String.eqb checkName "buildifier" then (Some checkBuildifier, None)
  else if String.eqb checkName "bazel" then (Some checkBazelBuild, None)
  else (None, Some ("checkFn not found for " ++ Quote checkName)).

(* ------------------------------------------------------------------ *)
(** *** Provisioning and the webhook flows *)

(** [app.Token] *)
Definition Token : string * option string := token_res env.

(** [cloneRepo]; the [*git.Repository] it also returns is discarded by
    both callers and not modelled.  [git.PlainCloneContext] creates
    [targetDir]; when the clone itself fails go-git removes what it
    created, so the directory is only there once the clone succeeded. *)
Definition cloneRepo (fullRepoName : string) (installationID : Z) (ref : GitRef)
    (targetDir : string) : M (option string) :=
  match Token with
  | (_, Some e) => ret (Some ("failed to get token: " ++ e))
  | (token, None) =>
    match clone_err env with
    | Some e => ret (Some ("unable to clone repo to " ++ Quote targetDir ++ ": " ++ e))
    | None =>
      mkdir targetDir ;;
      match worktree_err env with
      | Some e => ret (Some ("failed to get work tree: " ++ e))
      | None =>
        let pulled :=
          if negb (String.eqb (branch ref) "") then
            match pull_res env with
            | PullErr e => Some ("failed to pull: " ++ e)
            | _ => None
            end
          else None in
        match pulled with
        | Some e => ret (Some e)
        | None =>
          if negb (String.eqb (hash ref) "") then
            match checkout_err env with
            | Some e => ret (Some ("failed to checkout " ++ hash ref ++ ": " ++ e))
            | None => ret None
            end
          else ret None
        end
      end
    end
  end.

(** [createCompletedUpdateCheckRunOptions]; [None] is a nil [*Result],
    whose dereference panics. *)
Definition createCompletedUpdateCheckRunOptions (result : option Result) (checkName : string)
  : option CheckRunOptions :=
  match result with
  | None => None
  | Some r =>
      Some (mkOpts checkName "completed" (Some (Conclusion r))
              (Some (Title r, Summary r, Annotations r))
              (if String.eqb (URL r) "" then None else Some (URL r))
              (match Action_ r with Some a => [a] | None => [] end))
  end.

(** The fields of a [check_run] event the flows read. *)
Record CheckRunEvent := mkEvent {
  ev_owner : string;
  ev_repo : string;
  ev_id : Z;
  ev_installationID : Z;
  ev_checkName : string;
  ev_fullRepoName : string;
  ev_headSHA : string;
  ev_headBranch : string;
  ev_requestedAction : string }.

(** How a flow leaves: a returned [error], or a run-time panic. *)
Inductive Outcome := Returned (e : option string) | Panicked.

(** [ghc.Checks.UpdateCheckRun] followed by [extractError]. *)
Definition UpdateCheckRun (opts : CheckRunOptions) : M (option string) :=
  ret (update_err env opts).

(** The part of [InitCheckRun] after [defer]: from [GetCheckFn] on. *)
Definition InitCheckRun_body (app : GithubApp) (ev : CheckRunEvent) (dir : string) : M Outcome :=
  let checkName := ev_checkName ev in
  match GetCheckFn checkName with
  | (_, Some e) => ret (Returned (Some e))
  | (None, None) => ret Panicked
  | (Some checker, None) =>
    '(result, err) <- checker app dir ;;
    match err with
    | Some e => ret (Returned (Some ("failed to run " ++ checkName ++ ": " ++ e)))
    | None =>
      match createCompletedUpdateCheckRunOptions result checkName with
      | None => ret Panicked
      | Some opts =>
        e <- UpdateCheckRun opts ;;
        match e with
        | Some e => ret (Returned (Some e))
        | None =>
          log_printf "updated Run" ;;
          e <- os_RemoveAll dir ;;
          log_err ("failed to cleanup dir " ++ Quote dir ++ ": ") e ;;
          ret (Returned None)
        end
      end
    end
  end.

(** The function deferred by [InitCheckRun]. *)
Definition InitCheckRun_deferred (dir : string) : M unit :=
  e <- os_RemoveAll dir ;;
  log_err ("failed to cleanup dir " ++ Quote dir ++ ": ") e.

Definition InitCheckRun (app : GithubApp) (ev : CheckRunEvent) : M Outcome :=
  let checkName := ev_checkName ev in
  e <- UpdateCheckRun (mkOpts checkName inProgress None None None []) ;;
  match e with
  | Some e => ret (Returned (Some e))
  | None =>
    log_printf "updated Run" ;;
    let dir := getTmpDir (ev_fullRepoName ev) checkName in
    e <- cloneRepo (ev_fullRepoName ev) (ev_installationID ev) (mkGitRef (ev_headSHA ev) "") dir ;;
    match e with
    | Some e => ret (Returned (Some ("failed to clone repo: " ++ e)))
    | None =>
      (* defer: runs however the body leaves, panics included *)
      o <- InitCheckRun_body app ev dir ;;
      InitCheckRun_deferred dir ;;
      ret o
    end
  end.

(** [TakeRequestedAction].  Its deferred function has an empty body: the
    cleanup in it is commented out in the source. *)
Definition TakeRequestedAction (app : GithubApp) (ev : CheckRunEvent) : M (option string) :=
  let fullRepoName := ev_fullRepoName ev in
  let headBranch := ev_headBranch ev in
  if String.eqb (ev_requestedAction ev) buildifierFix then
    let dir := getTmpDir fullRepoName buildifierFix in
    e <- cloneRepo fullRepoName (ev_installationID ev) (mkGitRef "" headBranch) dir ;;
    match e with
    | Some e => ret (Some ("failed to clone repo: " ++ e))
    | None =>
      match Token with
      | (_, Some e) => ret (Some ("failed to get token: " ++ e))
      | (token, None) =>
        let url := "https://x-access-token:" ++ token ++ "@github.com/" ++ fullRepoName ++ ".git" in
        '(curDir, e) <- os_Getwd ;;
        match e with
        | Some _ => ret (Some "failed to get current directory")
        | None =>
          e <- os_Chdir dir ;;
          match e with
          | Some e => ret (Some ("failed to change directory to " ++ Quote dir ++ ": " ++ e))
          | None =>
            '(_, stdErr, err) <- runCmd "git" ["checkout"; "--track"; "origin/" ++ headBranch] ;;
            (if Nat.eqb (String.length stdErr) 0 then ret tt else log_printf stdErr) ;;
            match err with
            | Some e => ret (Some ("failed to checkout branch " ++ headBranch ++ ": " ++ e))
            | None =>
              '(_, _, err) <- runCmd "buildifier" ["--mode=fix"; "-r"; dir] ;;
              match err with
              | Some e => ret (Some e)
              | None =>
                log_printf "Creating commit" ;;
                '(_, stdErr, err) <- runCmd "git" ["commit"; "-a"; "-m"; "'Fix BUILD lint errors'";
                                     "--author"; "'Lulu Code Review Bot <lulu@luluz.club>'"] ;;
                (if Nat.eqb (String.length stdErr) 0 then ret tt else log_printf stdErr) ;;
                match err with
                | Some e => ret (Some ("failed to create commit: " ++ e))
                | None =>
                  '(_, stdErr, err) <- runCmd "git" ["push"; url] ;;
                  (if Nat.eqb (String.length stdErr) 0 then ret tt else log_printf stdErr) ;;
                  match err with
                  | Some e => ret (Some ("failed to push to " ++ Quote url ++ ": " ++ e))
                  | None =>
                    e <- os_Chdir curDir ;;
                    match e with
                    | Some e => ret (Some ("failed to change directory back " ++ Quote curDir ++ ": " ++ e))
                    | None => ret None
                    end
                  end
                end
              end
            end
          end
        end
      end
    end
  else ret None.

End Program.

(* ================================================================== *)
(** ** Concrete environments *)

(** Every external call succeeds; subprocesses answer with [p]. *)
Definition env_ok (p : string -> list string -> Proc) : Env :=
  mkEnv p None (fun _ => None) (fun _ => None) ("tok", None) (fun _ => None)
        None None PullOk None (fun t => Some ("/usr/bin/" ++ t)).

Definition st0 : St := mkSt "/srv" [] [].

Definition nl : string := chr 10.

Definition app0 : GithubApp := mkGithubApp 1 "secret" "key".

Definition build_log : string :=
  "Streaming build results to: https://x/y" ++ nl ++ "ERROR: build failed" ++ nl
  ++ "pkg/BUILD:12:3: undeclared dependency" ++ nl
  ++ "pkg/BUILD:12:3: undeclared dependency" ++ nl.

Definition ev0 : CheckRunEvent :=
  mkEvent "o" "r" 7 42 "buildifier" "o/r" "0123abcd" "main" buildifierFix.

(* ================================================================== *)
(** ** Vocabulary of the properties *)

(** The arguments the two runners pass to [runCmd]. *)
Definition buildifier_args (dir : string) : list string := ["--mode=check"; "-r"; dir].
Definition bb_args (app : GithubApp) : list string :=
  ["build"; "//..."; "--remote_header=x-buildbuddy-api-key=" ++ bbAPIKey app].

(** A (trimmed) line the build-log parser turns into an annotation unless
    it has been seen: not a noise line, and matched by [lineCommentRegex]. *)
Definition is_diag (line : string) : bool :=
  negb (is_noise line) &&
  match lineCommentMatch line with Some _ => true | None => false end.

(** The diagnostic lines of a build log, trimmed, in order. *)
Definition diag_lines (raw : list string) : list string := filter is_diag (map TrimSpace raw).

(** First occurrences only, skipping what is in [seen]. *)
Fixpoint dedup (seen : list string) (l : list string) : list string :=
  match l with
  | [] => []
  | x :: r => if mem x seen then dedup seen r else x :: dedup (x :: seen) r
  end.

(** The annotation the build-log parser makes of a diagnostic line. *)
Definition line_annotation (line : string) : Annotation :=
  match lineCommentMatch line with
  | Some (file, n, _, c) => mkAnnotation c (fst (Atoi n)) file "failure"
  | None => mkAnnotation "" 0 "" "failure"
  end.

(** The file part of a line of [buildifier --mode=check] output, and the
    annotation the formatting-check parser makes of the line. *)
Definition file_part (line : string) : string := TrimSpace (hd EmptyString (Split line "#"%char)).

Definition buildifier_annotation (dir line : string) : Annotation :=
  let rel := fst (Rel dir (file_part line)) in
  mkAnnotation ("file " ++ Quote rel ++ " needs reformat") 1 rel "failure".

(** Printable ASCII with neither a double quote nor a backslash: the
    strings [%q] only wraps in quotes. *)
Fixpoint plain (s : string) : bool :=
  match s with
  | EmptyString => true
  | String c r =>
      let n := byte_of c in
      Nat.leb 32 n && Nat.ltb n 127 && negb (Nat.eqb n 34) && negb (Nat.eqb n 92) && plain r
  end.

(** [p] lies at or under the absolute directory [root] (not [/]),
    lexically, after [filepath.Clean]. *)
Definition under_root (root p : string) : bool :=
  let r := Clean root in
  let q := Clean p in
  HasPrefix r "/" && negb (String.eqb r "/") && (String.eqb q r || HasPrefix q (r ++ "/")).

(** [cloneRepo] succeeds in [env] for [ref]. *)
Definition clone_ok (env : Env) (ref : GitRef) : bool :=
  match snd (token_res env), clone_err env, worktree_err env with
  | None, None, None =>
      (String.eqb (branch ref) "" || match pull_res env with PullErr _ => false | _ => true end)
      && (String.eqb (hash ref) "" || match checkout_err env with Some _ => false | None => true end)
  | _, _, _ => false
  end.

(** [env] with other answers of [os.RemoveAll]. *)
Definition with_removeall (env : Env) (f : string -> option string) : Env :=
  mkEnv (run env) (getwd_err env) (chdir_err env) f (token_res env) (update_err env)
        (clone_err env) (worktree_err env) (pull_res env) (checkout_err env) (look_path env).

Definition in_progress_opts (checkName : string) : CheckRunOptions :=
  mkOpts checkName inProgress None None None [].

(** A computation that leaves the directories on disk as they are and
    only adds to the log. *)
Definition keeps_disk {A} (m : M A) : Prop :=
  forall s, fs (snd (m s)) = fs s /\ incl (logs s) (logs (snd (m s))).

(** The environment of the formatting-check example: the tool reports two files. *)
Definition envF : Env := env_ok (fun _ _ => mkProc "" ("/tmp/r/BUILD # comment" ++ nl ++ "/tmp/r/pkg/BUILD" ++ nl) None).

(** A string of ASCII digits. *)
Definition digits (s : string) : Prop := Forall (fun c => is_digit c = true) (list_ascii_of_string s).

(** Every ['/'] of [l] has a non-empty part before it and, right after
    it, a character other than ['/']. *)
Definition slashes_ok (l : list ascii) : Prop :=
  forall x y, l = app x (Separator :: y) ->
    x <> [] /\ exists c y', y = c :: y' /\ c <> Separator.

(** An element of a cleaned path: non-empty and without ['/']. *)
Definition elem_ok (e : string) : Prop := e <> "" /\ ~ In Separator (list_ascii_of_string e).

(** The Result of the formatting-check example. *)
Definition rF : Result :=
  match fst (checkBuildifier envF app0 "/tmp/r" st0) with
  | (Some r, _) => r
  | _ => new_result ""
  end.

(** The error [runCmd] returns for a command: none when stderr is non-empty, else the process error. *)
Definition runCmd_err (env : Env) (t : string) (a : list string) : option string :=
  let p := run env t a in if Nat.ltb 0 (String.length (stderr p)) then None else perr p.
(** The working copy of the fix action. *)
Definition fix_dir (ev : CheckRunEvent) : string := getTmpDir (ev_fullRepoName ev) buildifierFix.
(** The arguments of the branch checkout in [TakeRequestedAction]. *)
Definition checkout_args (ev : CheckRunEvent) : list string := ["checkout"; "--track"; "origin/" ++ ev_headBranch ev].
(** The arguments of the buildifier fix run. *)
Definition fix_args (ev : CheckRunEvent) : list string := ["--mode=fix"; "-r"; fix_dir ev].
(** The arguments of the fix commit. *)
Definition commit_args : list string :=
  ["commit"; "-a"; "-m"; "'Fix BUILD lint errors'"; "--author"; "'Lulu Code Review Bot <lulu@luluz.club>'"].
(** The remote the fix is pushed to. *)
Definition push_url (tok fullRepoName : string) : string :=
  "https://x-access-token:" ++ tok ++ "@github.com/" ++ fullRepoName ++ ".git".
(** [o] is [None]. *)
Definition is_none {A} (o : option A) : bool := match o with None => true | Some _ => false end.
(** The fix action gets past its clone, token, [Getwd] and [Chdir] steps. *)
Definition fix_ready (env : Env) (ev : CheckRunEvent) : bool :=
  clone_ok env (mkGitRef "" (ev_headBranch ev)) && is_none (snd (token_res env))
  && is_none (getwd_err env) && is_none (chdir_err env (fix_dir ev)).

Section Webhook.

Variable env : Env.

(** [app.GetClient(installationID).Checks.CreateCheckRun] for a check
    name and a head SHA, followed by [extractError]. *)
Variable create_err : string -> string -> option string.

(** The loop of [CreateCheckRuns] over [checks]. *)
Fixpoint create_loop (names : list string) (headSHA : string) : M (option string) :=
  match names with
  | [] => ret None
  | checkName :: rest =>
      match create_err checkName headSHA with
      | Some e => ret (Some e)
      | None => log_printf ("checkRun created: " ++ checkName) ;; create_loop rest headSHA
      end
  end.

Definition CreateCheckRuns (headSHA : string) : M (option string) := create_loop checks headSHA.

(** The events [HandleWebhook] tells apart, with the fields it reads. *)
Inductive Payload :=
| CheckSuitePayload (action : string) (headSHA : string)
| CheckRunPayload (appID_ : Z) (action : string) (ev : CheckRunEvent)
| OtherPayload (typeName : string).

Definition payload_type (p : Payload) : string :=
  match p with
  | CheckSuitePayload _ _ => "*github.CheckSuiteEvent"
  | CheckRunPayload _ _ _ => "*github.CheckRunEvent"
  | OtherPayload t => t
  end.

(** How a request ends: an error response written by [writeError], a
    normal return, or a panic. *)
Inductive WebhookOutcome := Responded (code : Z) (msg : string) | Handled | WebhookPanicked.

(** [HandleWebhook].  The request is given by what [github.ValidatePayload]
    and [github.ParseWebHook] make of it: an error (of neither call is it
    a [*github.ErrorResponse], so [writeError] answers 500) or the event. *)
Definition HandleWebhook (app : GithubApp) (req : string + Payload) : M WebhookOutcome :=
  match req with
  | inl e => ret (Responded 500 e)
  | inr p =>
    log_printf ("Got webhook payload of type " ++ payload_type p) ;;
    o <- match p with
         | CheckSuitePayload action headSHA =>
             if String.eqb action "requested" || String.eqb action "rerequested" then
               e <- CreateCheckRuns headSHA ;; ret (Returned e)
             else ret (Returned None)
         | CheckRunPayload id action ev =>
             if Z.eqb id (appID app) then
               if String.eqb action "created" then InitCheckRun env app ev
               else if String.eqb action "rerequested" then
                 e <- CreateCheckRuns (ev_headSHA ev) ;; ret (Returned e)
               else if String.eqb action "requested_action" then
                 e <- TakeRequestedAction env app ev ;; ret (Returned e)
               else ret (Returned None)
             else ret (Returned None)
         | OtherPayload _ => ret (Returned None)
         end ;;
    match o with
    | Panicked => ret WebhookPanicked
    | Returned (Some e) => log_printf ("error handling event: " ++ e) ;; ret Handled
    | Returned None => ret Handled
    end
  end.

End Webhook.

(** A subprocess oracle where the command [bad] fails with [e] and an
    empty stderr, and every other command succeeds silently. *)
Definition run_fail (bad : list string) (e : string) : string -> list string -> Proc :=
  fun t a => if list_eq_dec string_dec (t :: a) bad then mkProc "" "" (Some e) else mkProc "" "" None.

(** The environment of the build-log example. *)
Definition envB : Env := env_ok (fun _ _ => mkProc build_log "" None).

(** The Result of the build-log example. *)
Definition rB : Result :=
  match fst (checkBazelBuild envB app0 "/tmp/r" st0) with
  | (Some r, _) => r
  | _ => new_result ""
  end.

(** A line of 64 KiB. *)
Definition long_line : string := string_of_list_ascii (repeat "x"%char MaxScanTokenSize).

(** [ev0] for another check name. *)
Definition ev_named (name : string) : CheckRunEvent :=
  mkEvent "o" "r" 7 42 name "o/r" "0123abcd" "main" buildifierFix.

(** The line ends in a carriage return. *)
Definition ends_cr (l : string) : bool :=
  match rev (list_ascii_of_string l) with
  | c :: _ => Ascii.eqb c (ascii_of_nat 13)
  | [] => false
  end.
(** The string holds no newline. *)
Definition no_nl (l : string) : bool := negb (existsb (fun c => Ascii.eqb c (ascii_of_nat 10)) (list_ascii_of_string l)).
(** A line the scanner returns as it is: no newline, no final carriage return, shorter than the buffer. *)
Definition token_ok (l : string) : bool := no_nl l && negb (ends_cr l) && Nat.ltb (String.length l) MaxScanTokenSize.
(** The lines, each ended by a newline. *)
Definition lines_text (ls : list string) : string := String.concat "" (map (fun l => l ++ nl) ls).

(** The number of colons in a string. *)
Definition ncolons (s : string) : nat := count_occ ascii_dec (list_ascii_of_string s) colon.

(* ================================================================== *)
(** ** Checks of the models on concrete inputs *)

Example Clean_ex1 : Clean "a//b/./c/../" = "a/b". Proof. reflexivity. Qed.

Example Rel_ex1 : Rel "/tmp/r" "/tmp/r/pkg/BUILD" = ("pkg/BUILD", None). Proof. reflexivity. Qed.

Example Rel_ex3 : fst (Rel "/tmp/r" "pkg/BUILD") = "". Proof. reflexivity. Qed.

Example lcr_ex1 :
  lineCommentMatch "pkg/BUILD:12:3: undeclared dependency"
  = Some ("pkg/BUILD", "12", "3", " undeclared dependency").
Proof. reflexivity. Qed.

Example url_ex1 : urlMatch "INFO: Streaming build results to: https://x/y" = Some "https://x/y".
Proof. reflexivity. Qed.

Example scan_ex1 : scan_lines ("a" ++ chr 13 ++ chr 10 ++ chr 10 ++ "b") = ["a"; ""; "b"].
Proof. reflexivity. Qed.

Example atoi_ex1 : Atoi "0012" = (12%Z, None). Proof. reflexivity. Qed.

Example Clean_ex2 : Clean "/../x" = "/x". Proof. reflexivity. Qed.
Example Rel_ex2 : Rel "/a/b" "/a/c/d" = ("../c/d", None). Proof. reflexivity. Qed.
Example Rel_ex4 : Rel "/tmp/r" "/tmp/r/" = (".", None). Proof. reflexivity. Qed.
Example lcr_ex2 : lineCommentMatch "a:1:2:b:3:4:c" = Some ("a:1:2:b", "3", "4", "c").
Proof. reflexivity. Qed.
Example trim_ex1 : TrimSpace (" " ++ chr 9 ++ "ab c" ++ bytes [194; 160] ++ chr 13) = "ab c".
Proof. reflexivity. Qed.
Example quote_ex1 : Quote ("a" ++ dq ++ chr 10) = dq ++ "a" ++ bs ++ dq ++ bs ++ "n" ++ dq.
Proof. reflexivity. Qed.

(* ================================================================== *)
(** ** Unfolding the monad *)

Ltac unfold_m :=
  unfold bind, ret, log_printf, log_all, log_err, os_Getwd, os_Chdir,
         os_RemoveAll, mkdir, UpdateCheckRun, runCmd in *.

(* ================================================================== *)
(** ** The build-log parser *)

Lemma bazel_step_ann_m (st : BLoop) (raw : string) :
  b_annotations (bazel_step st raw) =
    (if is_diag (TrimSpace raw) && negb (mem (TrimSpace raw) (b_m st))
     then app (b_annotations st) [line_annotation (TrimSpace raw)] else b_annotations st)
  /\ b_m (bazel_step st raw) =
    (if is_diag (TrimSpace raw) && negb (mem (TrimSpace raw) (b_m st))
     then TrimSpace raw :: b_m st else b_m st).
Proof.
  unfold bazel_step, is_diag, line_annotation.
  destruct (String.eqb (b_url st) "");
    [destruct (urlMatch (TrimSpace raw)) |]; simpl;
    destruct (is_noise (TrimSpace raw)); simpl; auto;
    destruct (lineCommentMatch (TrimSpace raw)) as [[[[f n] c] cm]|]; simpl; auto;
    destruct (mem (TrimSpace raw) (b_m st)); simpl; auto;
    destruct (Atoi n); simpl; auto.
Qed.

Lemma bazel_fold_annotations (ls : list string) (st : BLoop) :
  b_annotations (fold_left bazel_step ls st)
  = app (b_annotations st) (map line_annotation (dedup (b_m st) (diag_lines ls))).
Proof.
  revert st; induction ls as [|raw ls IH]; intros st; simpl.
  - now rewrite app_nil_r.
  - rewrite IH. destruct (bazel_step_ann_m st raw) as [Ha Hm].
    rewrite Ha, Hm. unfold diag_lines. simpl.
    destruct (is_diag (TrimSpace raw)); simpl; [|reflexivity].
    destruct (mem (TrimSpace raw) (b_m st)); simpl; [reflexivity|].
    now rewrite <- app_assoc.
Qed.

Lemma bazel_loop_annotations (ls : list string) :
  b_annotations (bazel_loop ls) = map line_annotation (dedup [] (diag_lines ls)).
Proof. unfold bazel_loop. now rewrite bazel_fold_annotations. Qed.

Lemma bazel_step_url_keep (st : BLoop) (raw : string) :
  b_url st <> "" -> b_url (bazel_step st raw) = b_url st.
Proof.
  intros H. unfold bazel_step.
  destruct (String.eqb (b_url st) "") eqn:E.
  - apply String.eqb_eq in E. contradiction.
  - destruct (is_noise (TrimSpace raw)); [reflexivity|].
    destruct (lineCommentMatch (TrimSpace raw)) as [[[[f n] c] cm]|]; [|reflexivity].
    destruct (mem (TrimSpace raw) (b_m st)); [reflexivity|].
    now destruct (Atoi n).
Qed.

Lemma bazel_fold_url_keep (ls : list string) (st : BLoop) :
  b_url st <> "" -> b_url (fold_left bazel_step ls st) = b_url st.
Proof.
  revert st; induction ls as [|raw ls IH]; intros st H; simpl; [reflexivity|].
  rewrite IH; rewrite bazel_step_url_keep; auto.
Qed.

Lemma bazel_step_url_set (st : BLoop) (raw u : string) :
  b_url st = "" -> urlMatch (TrimSpace raw) = Some u -> b_url (bazel_step st raw) = u.
Proof.
  intros H1 H2. unfold bazel_step. rewrite H1, H2. simpl.
  destruct (is_noise (TrimSpace raw)); [reflexivity|].
  destruct (lineCommentMatch (TrimSpace raw)) as [[[[f n] c] cm]|]; [|reflexivity].
  destruct (mem (TrimSpace raw) (b_m _)); [reflexivity|].
  now destruct (Atoi n).
Qed.

Lemma diag_lines_app (l1 l2 : list string) :
  diag_lines (l1 ++ l2) = app (diag_lines l1) (diag_lines l2).
Proof. unfold diag_lines. now rewrite map_app, filter_app. Qed.

Lemma bazel_finish_url (res : Result) (st : BLoop) : URL (bazel_finish res st) = b_url st.
Proof. reflexivity. Qed.

Lemma bazel_finish_annotations (res : Result) (st : BLoop) :
  Annotations res = [] -> Annotations (bazel_finish res st) = b_annotations st.
Proof.
  intros H. unfold bazel_finish.
  destruct (Nat.eqb (length (b_annotations st)) 0) eqn:E; simpl; [|reflexivity].
  apply Nat.eqb_eq, length_zero_iff_nil in E. now rewrite E.
Qed.

Lemma bazel_finish_conclusion (res : Result) (st : BLoop) :
  Conclusion (bazel_finish res st)
  = if Nat.eqb (length (b_annotations st)) 0 then "success" else "failure".
Proof. unfold bazel_finish. now destruct (Nat.eqb _ 0). Qed.

Lemma dedup_nil_iff (seen l : list string) : dedup seen l = [] -> Forall (fun x => mem x seen = true) l.
Proof.
  revert seen; induction l as [|x l IH]; intros seen H; simpl in *; [constructor|].
  destruct (mem x seen) eqn:E; [|discriminate].
  constructor; auto.
Qed.

Lemma dedup_in (seen l : list string) (x : string) :
  In x (dedup seen l) <-> In x l /\ mem x seen = false.
Proof.
  revert seen; induction l as [|y l IH]; intros seen; simpl; [tauto|].
  destruct (mem y seen) eqn:Ey.
  - rewrite IH. split; [tauto|]. intros [[<-|H] Hm]; [congruence|auto].
  - simpl. rewrite IH. unfold mem. simpl. split.
    + intros [<-|[H1 H2]]; [split; [left; reflexivity| exact Ey]|].
      apply orb_false_iff in H2. split; [right; exact H1| tauto].
    + intros [[<-|H] Hm]; [left; reflexivity|].
      destruct (String.eqb_spec y x) as [E|Hne]; [left; exact E|].
      right. split; [exact H|]. simpl.
      apply orb_false_iff. split; [|exact Hm].
      apply String.eqb_neq. intro E; apply Hne; symmetry; exact E.
Qed.

Lemma dedup_nodup (seen l : list string) : NoDup (dedup seen l).
Proof.
  revert seen; induction l as [|y l IH]; intros seen; simpl; [constructor|].
  destruct (mem y seen); [apply IH|].
  constructor; [|apply IH].
  rewrite dedup_in. unfold mem. simpl. rewrite String.eqb_refl. simpl. intros [_ H]; discriminate.
Qed.

Lemma dedup_count (l : list string) (x : string) :
  In x l -> count_occ string_dec (dedup [] l) x = 1.
Proof.
  intros H.
  assert (Hin : In x (dedup [] l)) by (apply dedup_in; split; [exact H|reflexivity]).
  pose proof (proj1 (NoDup_count_occ string_dec (dedup [] l)) (dedup_nodup [] l) x) as Hle.
  apply (count_occ_In string_dec) in Hin. lia.
Qed.

Lemma checkBazelBuild_some (env : Env) (app : GithubApp) (dir : string) (st : St) r e :
  fst (checkBazelBuild env app dir st) = (Some r, e) ->
  r = bazel_finish (new_result "Build result")
        (bazel_loop (scan_lines (stdout (run env "bb" (bb_args app))))) /\ e = None.
Proof.
  intros H.
  unfold checkBazelBuild in H. unfold_m. unfold bb_args.
  destruct (getwd_err env); simpl in H; [discriminate|].
  destruct (chdir_err env dir); simpl in H; [discriminate|].
  destruct (perr _); simpl in H;
  destruct (Nat.ltb 0 _); simpl in H;
  destruct (Nat.eqb (String.length (stdout _)) 0); simpl in H; try discriminate;
  destruct (chdir_err env (cwd st)); simpl in H; try discriminate;
  inversion H; auto.
Qed.

Lemma checkBazelBuild_state (env : Env) (app : GithubApp) (dir : string) (st st' : St) :
  getwd_err env = None -> (forall d, chdir_err env d = None) ->
  fst (checkBazelBuild env app dir st) = fst (checkBazelBuild env app dir st').
Proof.
  intros Hg Hc.
  unfold checkBazelBuild. unfold_m. rewrite Hg. simpl. rewrite !Hc. simpl.
  destruct (perr _); simpl;
  destruct (Nat.ltb 0 _); simpl;
  destruct (Nat.eqb (String.length (stdout _)) 0); simpl; rewrite ?Hc; reflexivity.
Qed.

Lemma checkBuildifier_value (env : Env) (app : GithubApp) (dir : string) (st : St) :
  let p := run env "buildifier" (buildifier_args dir) in
  let anns := f_annotations (buildifier_loop dir (scan_lines (stderr p))) in
  fst (checkBuildifier env app dir st) =
    if Nat.eqb (String.length (stderr p)) 0 then
      match perr p with
      | Some e => (None, Some e)
      | None => (Some (buildifier_finish
                   (set_summary "No issues found." "success" (new_result "Buildifier Lint Result"))
                   anns), None)
      end
    else (Some (buildifier_finish (new_result "Buildifier Lint Result") anns), None).
Proof.
  unfold checkBuildifier, buildifier_args. unfold_m. cbv zeta.
  generalize (run env "buildifier" ["--mode=check"; "-r"; dir]); intros p.
  destruct (perr p); simpl;
  destruct (String.length (stderr p)) eqn:E; simpl; rewrite ?E; simpl; reflexivity.
Qed.

Lemma split_char_cons (sep : ascii) (s : string) : exists x xs, split_char sep s = x :: xs.
Proof.
  induction s as [|c s IH]; simpl; [eauto|].
  destruct (Ascii.eqb c sep); [eauto|].
  destruct IH as [x [xs ->]]. eauto.
Qed.

Lemma buildifier_step_annotations (dir : string) (st : FLoop) (line : string) :
  f_annotations (buildifier_step dir st line)
  = app (f_annotations st) [buildifier_annotation dir line].
Proof.
  unfold buildifier_step, buildifier_annotation, file_part, Split.
  destruct (split_char_cons "#"%char line) as [x [xs ->]]. simpl.
  destruct (Rel dir (TrimSpace x)) as [rel err]. now destruct err.
Qed.

Lemma buildifier_loop_annotations (dir : string) (ls : list string) :
  f_annotations (buildifier_loop dir ls) = map (buildifier_annotation dir) ls.
Proof.
  unfold buildifier_loop.
  enough (forall st, f_annotations (fold_left (buildifier_step dir) ls st)
                     = app (f_annotations st) (map (buildifier_annotation dir) ls))
    by (rewrite H; reflexivity).
  induction ls as [|x ls IH]; intros st; simpl; [now rewrite app_nil_r|].
  rewrite IH, buildifier_step_annotations. now rewrite <- app_assoc.
Qed.

Lemma buildifier_finish_fields (res : Result) (anns : list Annotation) :
  Annotations res = [] ->
  (anns = [] -> Conclusion (buildifier_finish res anns) = "success"
               /\ Annotations (buildifier_finish res anns) = []
               /\ Action_ (buildifier_finish res anns) = Action_ res)
  /\ (anns <> [] -> Conclusion (buildifier_finish res anns) = "failure"
                  /\ Annotations (buildifier_finish res anns) = anns
                  /\ option_map Identifier (Action_ (buildifier_finish res anns)) = Some buildifierFix).
Proof.
  intros H. unfold buildifier_finish.
  destruct anns as [|a anns]; simpl.
  - split; [intros _; auto|]. intros C; now contradiction C.
  - split; [discriminate|]. intros _. auto.
Qed.

(* ================================================================== *)
(** ** Results of the runners and the claims *)

Lemma dedup_nil (l : list string) : dedup [] l = [] <-> l = [].
Proof.
  split; [|intros ->; reflexivity].
  intros H. apply dedup_nil_iff in H.
  destruct l as [|x l]; [reflexivity|]. inversion H; discriminate.
Qed.

Lemma checkBuildifier_some (env : Env) (app : GithubApp) (dir : string) (st : St) r e :
  fst (checkBuildifier env app dir st) = (Some r, e) ->
  exists res, r = buildifier_finish res (map (buildifier_annotation dir)
                                    (scan_lines (stderr (run env "buildifier" (buildifier_args dir)))))
    /\ Annotations res = [] /\ Action_ res = None /\ e = None.
Proof.
  intros H. rewrite checkBuildifier_value in H. rewrite <- buildifier_loop_annotations.
  destruct (Nat.eqb _ 0); [destruct (perr _)|]; inversion H; subst;
    eexists; (split; [reflexivity|split; [reflexivity|split; reflexivity]]).
Qed.

(** C8: [runCmd] hands back the process's stdout and stderr; its error
    is nil whenever stderr is non-empty, and is the process's own error
    only when stderr is empty. *)
Theorem runCmd_error_suppressed (env : Env) (tool : string) (args : list string) (st : St) :
  let p := run env tool args in
  fst (runCmd env tool args st) =
    (stdout p, stderr p, if Nat.ltb 0 (String.length (stderr p)) then None else perr p).
Proof.
  unfold runCmd; unfold_m. cbv zeta.
  generalize (run env tool args); intros p.
  destruct (perr p); simpl; destruct (Nat.ltb 0 (String.length (stderr p))); reflexivity.
Qed.

(** C1 (amended): once the working directory is read and changed,
    [checkBazelBuild] with an empty stdout returns a nil Result and the
    error of [runCmd] (the process's error if stderr is empty, nil
    otherwise).  [checkBuildifier] with an empty stderr returns a nil
    Result and the process's error when there is one, and otherwise a
    synthesized success Result with no annotations. *)
Theorem empty_output_returns (env : Env) (app : GithubApp) (dir : string) (st : St) :
  (getwd_err env = None -> chdir_err env dir = None ->
   stdout (run env "bb" (bb_args app)) = "" ->
   fst (checkBazelBuild env app dir st)
   = (None, if Nat.ltb 0 (String.length (stderr (run env "bb" (bb_args app)))) then None
            else perr (run env "bb" (bb_args app))))
  /\ (stderr (run env "buildifier" (buildifier_args dir)) = "" ->
      fst (checkBuildifier env app dir st)
      = match perr (run env "buildifier" (buildifier_args dir)) with
        | Some e => (None, Some e)
        | None => (Some (mkResult "Buildifier Lint Result" "No issues found." "success" [] "" None), None)
        end).
Proof.
  split.
  - intros Hg Hc Ho. unfold checkBazelBuild. unfold_m.
    change ["build"; "//..."; "--remote_header=x-buildbuddy-api-key=" ++ bbAPIKey app] with (bb_args app).
    generalize dependent (run env "bb" (bb_args app)). intros p Ho.
    rewrite Hg. simpl. rewrite Hc. simpl.
    destruct (perr p); simpl; destruct (Nat.ltb 0 (String.length (stderr p))); simpl; rewrite ?Ho; reflexivity.
  - intros He. rewrite checkBuildifier_value. cbv zeta. rewrite He. simpl.
    destruct (perr _); reflexivity.
Qed.

Lemma checkBazelBuild_value (env : Env) (app : GithubApp) (dir : string) (st : St) :
  getwd_err env = None -> (forall d, chdir_err env d = None) ->
  let p := run env "bb" (bb_args app) in
  fst (checkBazelBuild env app dir st)
  = if Nat.eqb (String.length (stdout p)) 0
    then (None, if Nat.ltb 0 (String.length (stderr p)) then None else perr p)
    else (Some (bazel_finish (new_result "Build result") (bazel_loop (scan_lines (stdout p)))), None).
Proof.
  intros Hg Hc. unfold checkBazelBuild. unfold_m. cbv zeta.
  change ["build"; "//..."; "--remote_header=x-buildbuddy-api-key=" ++ bbAPIKey app] with (bb_args app).
  generalize (run env "bb" (bb_args app)). intros p.
  rewrite Hg. simpl. rewrite Hc. simpl.
  destruct (perr p); simpl; destruct (Nat.ltb 0 (String.length (stderr p))); simpl;
  destruct (Nat.eqb (String.length (stdout p)) 0); simpl; rewrite ?Hc; reflexivity.
Qed.

Lemma buildifier_empty_stderr_result :
  fst (checkBuildifier (env_ok (fun _ _ => mkProc "" "" None)) app0 "/tmp/r" st0)
  = (Some (mkResult "Buildifier Lint Result" "No issues found." "success" [] "" None), None).
Proof. vm_compute. reflexivity. Qed.

Lemma empty_output_returns_witness :
  fst (checkBazelBuild (env_ok (fun _ _ => mkProc "" "" (Some "exit status 1"))) app0 "/tmp/r" st0)
    = (None, Some "exit status 1")
  /\ fst (checkBuildifier (env_ok (fun _ _ => mkProc "" "" (Some "exit status 1"))) app0 "/tmp/r" st0)
    = (None, Some "exit status 1").
Proof.
  split.
  - apply (proj1 (empty_output_returns (env_ok (fun _ _ => mkProc "" "" (Some "exit status 1"))) app0 "/tmp/r" st0));
      reflexivity.
  - apply (proj2 (empty_output_returns (env_ok (fun _ _ => mkProc "" "" (Some "exit status 1"))) app0 "/tmp/r" st0));
      reflexivity.
Defined.

(** C2 (amended): a Result of [checkBazelBuild] has conclusion success
    and no annotations when the build log has no diagnostic line, and
    otherwise conclusion failure and one annotation per distinct
    diagnostic line ([dedup []] keeps first occurrences).  A Result of
    [checkBuildifier] has conclusion success and no annotations when
    stderr scans to no line, and otherwise conclusion failure and one
    annotation per scanned line, duplicates included. *)
Theorem parser_conclusions (env : Env) (app : GithubApp) (dir : string) (st : St) (r : Result) e :
  (fst (checkBazelBuild env app dir st) = (Some r, e) ->
     let ls := diag_lines (scan_lines (stdout (run env "bb" (bb_args app)))) in
     (ls = [] -> Conclusion r = "success" /\ Annotations r = [])
     /\ (ls <> [] -> Conclusion r = "failure" /\ length (Annotations r) = length (dedup [] ls)))
  /\ (fst (checkBuildifier env app dir st) = (Some r, e) ->
     let ls := scan_lines (stderr (run env "buildifier" (buildifier_args dir))) in
     (ls = [] -> Conclusion r = "success" /\ Annotations r = [])
     /\ (ls <> [] -> Conclusion r = "failure" /\ length (Annotations r) = length ls)).
Proof.
  split.
  - intros H. apply checkBazelBuild_some in H as [-> _]. cbv zeta.
    rewrite bazel_finish_conclusion, bazel_finish_annotations by reflexivity.
    rewrite bazel_loop_annotations, length_map.
    split.
    + intros E. rewrite E. simpl. auto.
    + intros E. destruct (Nat.eqb_spec (length (dedup [] (diag_lines (scan_lines (stdout (run env "bb" (bb_args app))))))) 0) as [Z|Z].
      * apply length_zero_iff_nil in Z. apply (proj1 (dedup_nil _)) in Z. exfalso. exact (E Z).
      * auto.
  - intros H. apply checkBuildifier_some in H as [res [-> [Ha [Hact _]]]]. cbv zeta.
    destruct (buildifier_finish_fields res (map (buildifier_annotation dir)
      (scan_lines (stderr (run env "buildifier" (buildifier_args dir))))) Ha) as [H0 H1].
    split.
    + intros E. rewrite E in H0 |- *. simpl in H0. destruct (H0 eq_refl) as [? [? _]]. auto.
    + intros E. destruct H1 as [H1 [H2 _]].
      * intros M. apply map_eq_nil in M. contradiction.
      * rewrite H1, H2, length_map. auto.
Qed.

Lemma buildifier_duplicate_lines :
  option_map (fun r => length (Annotations r))
    (fst (fst (checkBuildifier (env_ok (fun _ _ => mkProc "" ("/tmp/r/BUILD" ++ nl ++ "/tmp/r/BUILD" ++ nl) None))
                 app0 "/tmp/r" st0))) = Some 2
  /\ length (dedup [] (scan_lines ("/tmp/r/BUILD" ++ nl ++ "/tmp/r/BUILD" ++ nl))) = 1.
Proof. split; vm_compute; reflexivity. Qed.

Lemma parser_conclusions_witness :
  let envB := env_ok (fun _ _ => mkProc build_log "" None) in
  let rB := mkResult "Build result" "Build doesn't complete successfully" "failure"
              [mkAnnotation " undeclared dependency" 12 "pkg/BUILD" "failure"] "https://x/y" None in
  let envF := env_ok (fun _ _ => mkProc "" ("/tmp/r/BUILD" ++ nl ++ "/tmp/r/BUILD" ++ nl) None) in
  let rF := mkResult "Buildifier Lint Result" "2 BUILD files need reformat" "failure"
              [mkAnnotation ("file " ++ dq ++ "BUILD" ++ dq ++ " needs reformat") 1 "BUILD" "failure";
               mkAnnotation ("file " ++ dq ++ "BUILD" ++ dq ++ " needs reformat") 1 "BUILD" "failure"]
              "" (Some (mkAction "Fix this" "Automatically fix buildifier errors." buildifierFix)) in
  (fst (checkBazelBuild envB app0 "/tmp/o/r/bazel" st0) = (Some rB, None)
   /\ Conclusion rB = "failure"
   /\ length (Annotations rB) = length (dedup [] (diag_lines (scan_lines build_log))))
  /\ (fst (checkBuildifier envF app0 "/tmp/r" st0) = (Some rF, None)
   /\ Conclusion rF = "failure"
   /\ length (Annotations rF) = length (scan_lines ("/tmp/r/BUILD" ++ nl ++ "/tmp/r/BUILD" ++ nl))).
Proof.
  intros envB rB envF rF.
  assert (HB : fst (checkBazelBuild envB app0 "/tmp/o/r/bazel" st0) = (Some rB, None))
    by (vm_compute; reflexivity).
  assert (HF : fst (checkBuildifier envF app0 "/tmp/r" st0) = (Some rF, None))
    by (vm_compute; reflexivity).
  split; (split; [assumption|]).
  - exact (proj2 (proj1 (parser_conclusions envB app0 "/tmp/o/r/bazel" st0 rB None) HB)
             ltac:(vm_compute; discriminate)).
  - exact (proj2 (proj2 (parser_conclusions envF app0 "/tmp/r" st0 rF None) HF)
             ltac:(vm_compute; discriminate)).
Defined.

(** C4 (amended): on the four-line build log of the example, the Result
    has url https://x/y, conclusion failure and exactly one annotation,
    at path pkg/BUILD, line 12, whose message keeps the space after the
    last colon: " undeclared dependency". *)
Theorem bazel_four_lines_result (env : Env) (app : GithubApp) (dir : string) (st : St) :
  getwd_err env = None -> (forall d, chdir_err env d = None) ->
  stdout (run env "bb" (bb_args app)) = build_log ->
  fst (checkBazelBuild env app dir st)
  = (Some (mkResult "Build result" "Build doesn't complete successfully" "failure"
             [mkAnnotation " undeclared dependency" 12 "pkg/BUILD" "failure"]
             "https://x/y" None), None).
Proof.
  intros Hg Hc Ho. rewrite (checkBazelBuild_value env app dir st Hg Hc). cbv zeta.
  rewrite Ho. vm_compute. reflexivity.
Qed.

Lemma bazel_four_lines_result_witness :
  fst (checkBazelBuild (env_ok (fun _ _ => mkProc build_log "" None)) app0 "/tmp/o/r/bazel" st0)
  = (Some (mkResult "Build result" "Build doesn't complete successfully" "failure"
             [mkAnnotation " undeclared dependency" 12 "pkg/BUILD" "failure"]
             "https://x/y" None), None).
Proof. apply bazel_four_lines_result; reflexivity. Defined.

Lemma bazel_four_lines_message :
  option_map (fun r => map Message (Annotations r))
    (fst (fst (checkBazelBuild (env_ok (fun _ _ => mkProc build_log "" None)) app0 "/tmp/o/r/bazel" st0)))
  = Some [" undeclared dependency"]
  /\ " undeclared dependency" <> "undeclared dependency".
Proof. split; [vm_compute; reflexivity|discriminate]. Qed.

(** C5: the annotations of [checkBazelBuild] are those of the distinct
    trimmed diagnostic lines, each line once however often it occurs in
    the log, and every distinct line gets its own annotation; a second
    invocation, from any state, gives the same Result (no memory is kept
    across invocations) when the working directory can be read and
    changed. *)
Theorem bazel_dedup_scoped (env : Env) (app : GithubApp) (dir : string) (st : St) (r : Result) e :
  fst (checkBazelBuild env app dir st) = (Some r, e) ->
  let ls := diag_lines (scan_lines (stdout (run env "bb" (bb_args app)))) in
  Annotations r = map line_annotation (dedup [] ls)
  /\ (forall x, In x ls -> count_occ string_dec (dedup [] ls) x = 1)
  /\ (forall st', getwd_err env = None -> (forall d, chdir_err env d = None) ->
        fst (checkBazelBuild env app dir st') = (Some r, e)).
Proof.
  intros H. cbv zeta. split; [|split].
  - apply checkBazelBuild_some in H as [-> _].
    rewrite bazel_finish_annotations by reflexivity. apply bazel_loop_annotations.
  - intros x Hx. apply dedup_count. exact Hx.
  - intros st' Hg Hc. rewrite (checkBazelBuild_state env app dir st' st Hg Hc). exact H.
Qed.

Lemma bazel_dedup_scoped_witness :
  let env := env_ok (fun _ _ => mkProc build_log "" None) in
  let r := mkResult "Build result" "Build doesn't complete successfully" "failure"
             [mkAnnotation " undeclared dependency" 12 "pkg/BUILD" "failure"] "https://x/y" None in
  fst (checkBazelBuild env app0 "/tmp/o/r/bazel" st0) = (Some r, None)
  /\ count_occ string_dec (dedup [] (diag_lines (scan_lines build_log))) "pkg/BUILD:12:3: undeclared dependency" = 1
  /\ fst (checkBazelBuild env app0 "/tmp/o/r/bazel" (mkSt "/home" ["/tmp"] ["x"])) = (Some r, None).
Proof.
  intros env r.
  assert (H : fst (checkBazelBuild env app0 "/tmp/o/r/bazel" st0) = (Some r, None))
    by (vm_compute; reflexivity).
  destruct (bazel_dedup_scoped env app0 "/tmp/o/r/bazel" st0 r None H) as [_ [H2 H3]].
  split; [exact H|split].
  - apply H2. vm_compute. left. reflexivity.
  - apply H3; reflexivity.
Defined.

(** C10: in the build-log parser the url is taken before noise lines are
    skipped: when no earlier line set the url, a noise line carrying the
    streaming-url pattern with a non-empty url sets the Result's url, and
    it adds no annotation. *)
Theorem url_before_noise (pre post : list string) (l u : string) (res : Result) :
  b_url (bazel_loop pre) = "" -> is_noise (TrimSpace l) = true ->
  urlMatch (TrimSpace l) = Some u -> u <> "" -> Annotations res = [] ->
  URL (bazel_finish res (bazel_loop (pre ++ l :: post))) = u
  /\ Annotations (bazel_finish res (bazel_loop (pre ++ l :: post)))
     = Annotations (bazel_finish res (bazel_loop (pre ++ post))).
Proof.
  intros Hpre Hn Hu Hne Hres. split.
  - rewrite bazel_finish_url. unfold bazel_loop. rewrite fold_left_app. simpl.
    rewrite bazel_fold_url_keep; rewrite (bazel_step_url_set _ l u); auto.
  - rewrite !bazel_finish_annotations by exact Hres. rewrite !bazel_loop_annotations.
    rewrite !diag_lines_app. unfold diag_lines at 2. simpl.
    unfold is_diag at 1. rewrite Hn. reflexivity.
Qed.

Lemma url_before_noise_witness :
  URL (bazel_finish (new_result "Build result")
         (bazel_loop ["ERROR: Streaming build results to: https://x/y"; "pkg/BUILD:1:1: x"]))
  = "https://x/y".
Proof.
  apply (proj1 (url_before_noise [] ["pkg/BUILD:1:1: x"] "ERROR: Streaming build results to: https://x/y"
                  "https://x/y" (new_result "Build result") eq_refl eq_refl eq_refl
                  ltac:(discriminate) eq_refl)).
Defined.

Lemma quote_bytes_plain (s : string) : plain s = true -> quote_bytes s = s.
Proof.
  induction s as [|c s IH]; [reflexivity|].
  intros H. cbn [plain quote_bytes] in *. apply andb_true_iff in H as [H Hs]. apply andb_true_iff in H as [H H92].
  apply andb_true_iff in H as [H H34]. apply andb_true_iff in H as [H32 H127].
  apply negb_true_iff in H92, H34.
  unfold quote_byte. rewrite H34, H92, H32, H127. simpl. f_equal. apply IH. exact Hs.
Qed.

Lemma Quote_plain (s : string) : plain s = true -> Quote s = dq ++ s ++ dq.
Proof. intros H. unfold Quote. rewrite quote_bytes_plain by exact H. reflexivity. Qed.

Lemma str_app_assoc (a b c : string) : (a ++ b) ++ c = a ++ b ++ c.
Proof. induction a as [|x a IH]; simpl; [reflexivity|]. now rewrite IH. Qed.

(** C3 (amended): a Result of [checkBuildifier] has one annotation per
    scanned stderr line, with the path [filepath.Rel] gives for the line
    relative to the root, line 1, severity failure and the message
    [file %q needs reformat] of that path, i.e. the path in double
    quotes when it is plain printable ASCII; with one or more
    annotations the conclusion is failure and the Action carries the
    identifier buildifier-fix. *)
Theorem buildifier_annotations_spec (env : Env) (app : GithubApp) (dir : string) (st : St) (r : Result) e :
  fst (checkBuildifier env app dir st) = (Some r, e) ->
  let ls := scan_lines (stderr (run env "buildifier" (buildifier_args dir))) in
  Annotations r = map (buildifier_annotation dir) ls
  /\ Forall (fun a => Line a = 1%Z /\ Severity a = "failure"
                /\ Message a = "file " ++ Quote (Path a) ++ " needs reformat"
                /\ (plain (Path a) = true -> Message a = "file " ++ dq ++ Path a ++ dq ++ " needs reformat"))
            (Annotations r)
  /\ (ls <> [] -> Conclusion r = "failure" /\ option_map Identifier (Action_ r) = Some buildifierFix).
Proof.
  intros H. apply checkBuildifier_some in H as [res [-> [Ha [Hact _]]]]. cbv zeta.
  destruct (buildifier_finish_fields res (map (buildifier_annotation dir)
      (scan_lines (stderr (run env "buildifier" (buildifier_args dir))))) Ha) as [H0 H1].
  assert (HF : Forall (fun a => Line a = 1%Z /\ Severity a = "failure"
                /\ Message a = "file " ++ Quote (Path a) ++ " needs reformat"
                /\ (plain (Path a) = true -> Message a = "file " ++ dq ++ Path a ++ dq ++ " needs reformat"))
            (map (buildifier_annotation dir) (scan_lines (stderr (run env "buildifier" (buildifier_args dir)))))).
  { apply Forall_forall. intros a Ha'. apply in_map_iff in Ha' as [l [<- _]].
    unfold buildifier_annotation. cbn [Line Severity Message Path]. split; [reflexivity|split; [reflexivity|split; [reflexivity|]]].
    intros Hp. rewrite Quote_plain by exact Hp. now rewrite !str_app_assoc. }
  destruct (scan_lines (stderr (run env "buildifier" (buildifier_args dir)))) as [|l ls] eqn:E.
  - simpl in H0 |- *. destruct (H0 eq_refl) as [_ [Hn _]]. rewrite Hn.
    split; [reflexivity|split; [constructor|intros C; contradiction C; reflexivity]].
  - destruct (H1 ltac:(discriminate)) as [Hc [Hn Hi]]. rewrite Hn.
    split; [reflexivity|split; [exact HF|intros _; split; assumption]].
Qed.

Lemma buildifier_annotations_spec_witness :
  let r := mkResult "Buildifier Lint Result" "2 BUILD files need reformat" "failure"
             [mkAnnotation ("file " ++ dq ++ "BUILD" ++ dq ++ " needs reformat") 1 "BUILD" "failure";
              mkAnnotation ("file " ++ dq ++ "pkg/BUILD" ++ dq ++ " needs reformat") 1 "pkg/BUILD" "failure"]
             "" (Some (mkAction "Fix this" "Automatically fix buildifier errors." buildifierFix)) in
  fst (checkBuildifier envF app0 "/tmp/r" st0) = (Some r, None)
  /\ map Path (Annotations r) = ["BUILD"; "pkg/BUILD"]
  /\ Conclusion r = "failure" /\ option_map Identifier (Action_ r) = Some buildifierFix.
Proof.
  intros r.
  assert (H : fst (checkBuildifier envF app0 "/tmp/r" st0) = (Some r, None)) by (vm_compute; reflexivity).
  destruct (buildifier_annotations_spec envF app0 "/tmp/r" st0 r None H) as [_ [_ H3]].
  split; [exact H|split; [reflexivity|]].
  apply H3. vm_compute. discriminate.
Defined.

Lemma buildifier_message_quoted :
  option_map (fun r => map Message (Annotations r)) (fst (fst (checkBuildifier envF app0 "/tmp/r" st0)))
  = Some ["file " ++ dq ++ "BUILD" ++ dq ++ " needs reformat"; "file " ++ dq ++ "pkg/BUILD" ++ dq ++ " needs reformat"]
  /\ "file " ++ dq ++ "BUILD" ++ dq ++ " needs reformat" <> "file BUILD needs reformat".
Proof. split; [vm_compute; reflexivity|discriminate]. Qed.

Lemma span_digits_all (s d r : string) : span_digits s = (d, r) -> digits d.
Proof.
  revert d r; induction s as [|c s IH]; intros d r H; simpl in H.
  - inversion H. constructor.
  - destruct (is_digit c) eqn:E.
    + destruct (span_digits s) as [d' r'] eqn:E'. inversion H; subst.
      constructor; [exact E|]. eapply IH. reflexivity.
    + inversion H. constructor.
Qed.

Lemma tail_match_digits (s ln col cm : string) : tail_match s = Some (ln, col, cm) -> digits ln.
Proof.
  unfold tail_match. destruct s as [|c1 r1]; [discriminate|].
  destruct (Ascii.eqb c1 colon); [|discriminate].
  destruct (span_digits r1) as [d1 r2] eqn:E1.
  destruct d1 as [|x d1]; [discriminate|]. destruct r2 as [|c2 r3]; [discriminate|].
  destruct (Ascii.eqb c2 colon); [|discriminate].
  destruct (span_digits r3) as [d2 r4].
  destruct d2 as [|y d2]; [discriminate|]. destruct r4 as [|c3 r5]; [discriminate|].
  destruct (Ascii.eqb c3 colon); [|discriminate].
  intros H. inversion H; subst. exact (span_digits_all _ _ _ E1).
Qed.

Lemma lineCommentMatch_digits (s f ln col cm : string) :
  lineCommentMatch s = Some (f, ln, col, cm) -> digits ln.
Proof.
  revert f; induction s as [|c s IH]; intros f; cbn [lineCommentMatch]; [discriminate|].
  destruct (Ascii.eqb c (ascii_of_nat 10)).
  - destruct (tail_match (String c s)) as [[[l1 c1] m1]|] eqn:E; [|discriminate].
    intros H; inversion H; subst. exact (tail_match_digits _ _ _ _ E).
  - destruct (lineCommentMatch s) as [[[[f' l'] c'] m']|] eqn:E0.
    + intros H; inversion H; subst. exact (IH f' eq_refl).
    + destruct (tail_match (String c s)) as [[[l1 c1] m1]|] eqn:E; [|discriminate].
      intros H; inversion H; subst. exact (tail_match_digits _ _ _ _ E).
Qed.

Lemma digits_value_nonneg (acc : Z) (s : string) : (0 <= acc)%Z -> digits s -> (0 <= digits_value acc s)%Z.
Proof.
  revert acc; induction s as [|c s IH]; intros acc Ha Hd; simpl; [exact Ha|].
  inversion Hd as [|x l Hc Hs]; subst. apply IH; [|exact Hs].
  unfold is_digit in Hc. apply andb_true_iff in Hc as [H1 _]. apply Nat.leb_le in H1. lia.
Qed.

Lemma Atoi_range (s : string) : digits s -> (0 <= fst (Atoi s) <= MaxInt)%Z.
Proof.
  intros H. unfold Atoi. destruct (Z.leb_spec (digits_value 0 s) MaxInt); simpl.
  - split; [apply digits_value_nonneg; [lia|exact H]|assumption].
  - unfold MaxInt. lia.
Qed.

Lemma line_annotation_range (x : string) : is_diag x = true -> (0 <= Line (line_annotation x) <= MaxInt)%Z.
Proof.
  unfold is_diag, line_annotation. intros H. apply andb_true_iff in H as [_ H].
  destruct (lineCommentMatch x) as [[[[f n] c] cm]|] eqn:E; [|discriminate].
  apply Atoi_range. exact (lineCommentMatch_digits _ _ _ _ _ E).
Qed.

(** C7 (amended): every annotation of [checkBuildifier] is at line 1;
    every annotation of [checkBazelBuild] comes from a trimmed line of the
    bb output matched by [lineCommentRegex] and carries the number
    [strconv.Atoi] makes of that line's line group, which lies between 0 and
    [2^63 - 1]; a line number that [Atoi] rejects is logged, and the
    line's annotation is still appended, the scan going on. *)
Theorem annotation_lines (env : Env) (app : GithubApp) (dir : string) (st : St) (r : Result) e :
  (fst (checkBuildifier env app dir st) = (Some r, e) -> Forall (fun a => Line a = 1%Z) (Annotations r))
  /\ (fst (checkBazelBuild env app dir st) = (Some r, e) ->
      Forall (fun a => exists x f n col c,
                In x (map TrimSpace (scan_lines (stdout (run env "bb" (bb_args app)))))
                /\ lineCommentMatch x = Some (f, n, col, c)
                /\ Line a = fst (Atoi n) /\ (0 <= Line a <= MaxInt)%Z) (Annotations r))
  /\ (forall (bst : BLoop) (raw f n col c : string),
      is_noise (TrimSpace raw) = false -> lineCommentMatch (TrimSpace raw) = Some (f, n, col, c) ->
      mem (TrimSpace raw) (b_m bst) = false ->
      b_annotations (bazel_step bst raw) = (b_annotations bst ++ [mkAnnotation c (fst (Atoi n)) f "failure"])%list
      /\ (snd (Atoi n) <> None ->
          In ("unable to parse string " ++ Quote n ++ " to int") (b_logs (bazel_step bst raw)))).
Proof.
  split; [|split].
  - intros H. apply checkBuildifier_some in H as [res [-> [Ha [_ _]]]].
    destruct (buildifier_finish_fields res (map (buildifier_annotation dir)
      (scan_lines (stderr (run env "buildifier" (buildifier_args dir))))) Ha) as [H0 H1].
    destruct (map (buildifier_annotation dir) _) as [|a0 l0] eqn:E.
    + destruct (H0 eq_refl) as [_ [-> _]]. constructor.
    + destruct (H1 ltac:(discriminate)) as [_ [-> _]]. rewrite <- E.
      apply Forall_forall. intros a Hin. apply in_map_iff in Hin as [x [<- _]]. reflexivity.
  - intros H. apply checkBazelBuild_some in H as [-> _].
    rewrite bazel_finish_annotations, bazel_loop_annotations by reflexivity.
    apply Forall_forall. intros a Hin. apply in_map_iff in Hin as [x [<- Hx]].
    apply dedup_in in Hx as [Hx _].
    unfold diag_lines in Hx. apply filter_In in Hx as [Hin Hd].
    pose proof (line_annotation_range x Hd) as Hr.
    unfold line_annotation in Hr |- *.
    destruct (lineCommentMatch x) as [[[[f n] col] c]|] eqn:E;
      [|unfold is_diag in Hd; rewrite E, andb_false_r in Hd; discriminate].
    exists x, f, n, col, c. repeat split; try assumption; lia.
  - intros bst raw f n col c Hn Hl Hm. unfold bazel_step.
    destruct (String.eqb (b_url bst) ""); [destruct (urlMatch (TrimSpace raw))|];
      cbn [b_m b_logs b_url b_annotations]; rewrite Hn, Hl; cbn [b_m b_logs]; rewrite Hm;
      destruct (Atoi n) as [v [err|]]; cbn [snd fst b_annotations b_logs];
      (split; [reflexivity|]); intros Ha; try contradiction;
      apply in_or_app; left; apply in_or_app; right; left; reflexivity.
Qed.

Lemma annotation_lines_witness :
  let env := env_ok (fun _ _ => mkProc ("pkg/BUILD:0:1: x" ++ nl) "" None) in
  let r := mkResult "Build result" "Build doesn't complete successfully" "failure"
             [mkAnnotation " x" 0 "pkg/BUILD" "failure"] "" None in
  fst (checkBazelBuild env app0 "/tmp/r" st0) = (Some r, None)
  /\ Forall (fun a => exists x f n col c,
                In x (map TrimSpace (scan_lines (stdout (run env "bb" (bb_args app0)))))
                /\ lineCommentMatch x = Some (f, n, col, c)
                /\ Line a = fst (Atoi n) /\ (0 <= Line a <= MaxInt)%Z) (Annotations r)
  /\ b_annotations (bazel_step bazel_init "a:99999999999999999999:1: x")
     = [mkAnnotation " x" (fst (Atoi "99999999999999999999")) "a" "failure"]
  /\ In ("unable to parse string " ++ Quote "99999999999999999999" ++ " to int")
        (b_logs (bazel_step bazel_init "a:99999999999999999999:1: x")).
Proof.
  intros env r.
  assert (H : fst (checkBazelBuild env app0 "/tmp/r" st0) = (Some r, None)) by (vm_compute; reflexivity).
  destruct (annotation_lines env app0 "/tmp/r" st0 r None) as [_ [H2 H3]].
  destruct (H3 bazel_init "a:99999999999999999999:1: x" "a" "99999999999999999999" "1" " x")
    as [Ha Hlog]; [reflexivity|reflexivity|reflexivity|].
  split; [exact H|split; [exact (H2 H)|split; [exact Ha|]]].
  apply Hlog. vm_compute. discriminate.
Defined.

Lemma bazel_line_zero :
  option_map (fun r => map Line (Annotations r))
    (fst (fst (checkBazelBuild (env_ok (fun _ _ => mkProc ("pkg/BUILD:0:1: x" ++ nl) "" None)) app0 "/tmp/r" st0)))
  = Some [0%Z].
Proof. vm_compute. reflexivity. Qed.

(* ================================================================== *)
(** ** The webhook flows *)

Lemma keeps_ret {A} (a : A) : keeps_disk (ret a).
Proof. intros s. split; [reflexivity|apply incl_refl]. Qed.

Lemma keeps_bind {A B} (m : M A) (k : A -> M B) :
  keeps_disk m -> (forall a, keeps_disk (k a)) -> keeps_disk (bind m k).
Proof.
  intros Hm Hk s. unfold bind. specialize (Hm s).
  destruct (m s) as [a s1]. simpl in Hm. destruct Hm as [Hf Hl].
  destruct (Hk a s1) as [Hf' Hl']. split; [congruence|].
  eapply incl_tran; eassumption.
Qed.

Lemma keeps_log_printf msg : keeps_disk (log_printf msg).
Proof. intros s. split; [reflexivity|]. simpl. apply incl_appl, incl_refl. Qed.

Lemma keeps_log_all msgs : keeps_disk (log_all msgs).
Proof. intros s. split; [reflexivity|]. simpl. apply incl_appl, incl_refl. Qed.

Lemma keeps_log_err p e : keeps_disk (log_err p e).
Proof. destruct e; [apply keeps_log_printf|apply keeps_ret]. Qed.

Lemma keeps_Getwd env : keeps_disk (os_Getwd env).
Proof. intros s. unfold os_Getwd. destruct (getwd_err env); split; (reflexivity || apply incl_refl). Qed.

Lemma keeps_Chdir env d : keeps_disk (os_Chdir env d).
Proof. intros s. unfold os_Chdir. destruct (chdir_err env d); split; (reflexivity || apply incl_refl). Qed.

Lemma keeps_UpdateCheckRun env o : keeps_disk (UpdateCheckRun env o).
Proof. apply keeps_ret. Qed.

Lemma keeps_RemoveAll_err env d e : removeall_err env d = Some e -> keeps_disk (os_RemoveAll env d).
Proof.
  intros H s. unfold os_RemoveAll. rewrite H.
  destruct (mem d (fs s)); split; (reflexivity || apply incl_refl).
Qed.

Ltac keeps :=
  repeat (cbv beta iota zeta;
    first
    [ apply keeps_bind; [| intros ?]
    | apply keeps_ret | apply keeps_log_printf | apply keeps_log_all | apply keeps_log_err
    | apply keeps_Getwd | apply keeps_Chdir | apply keeps_UpdateCheckRun
    | match goal with
      | |- keeps_disk (match ?x with _ => _ end) => destruct x
      end ]).

Lemma keeps_runCmd env t a : keeps_disk (runCmd env t a).
Proof. unfold runCmd. keeps. Qed.

Lemma keeps_checkBuildifier env app dir : keeps_disk (checkBuildifier env app dir).
Proof. unfold checkBuildifier. keeps; apply keeps_runCmd. Qed.

Lemma keeps_checkBazelBuild env app dir : keeps_disk (checkBazelBuild env app dir).
Proof. unfold checkBazelBuild. keeps; apply keeps_runCmd. Qed.

Lemma cloneRepo_ok env n i ref d s :
  clone_ok env ref = true -> fst (cloneRepo env n i ref d s) = None /\ In d (fs (snd (cloneRepo env n i ref d s))).
Proof.
  unfold clone_ok, cloneRepo, Token. unfold_m.
  destruct (token_res env) as [tok [te|]]; simpl; [discriminate|].
  destruct (clone_err env); [discriminate|].
  destruct (worktree_err env); [discriminate|].
  intros H. apply andb_true_iff in H as [Hb Hh].
  assert (Hd : In d (if mem d (fs s) then fs s else fs s ++ [d])).
  { destruct (mem d (fs s)) eqn:E.
    - unfold mem in E. apply existsb_exists in E as [x [Hx Ex]].
      apply String.eqb_eq in Ex. subst. exact Hx.
    - apply in_or_app. right. left. reflexivity. }
  destruct (String.eqb (branch ref) "") eqn:Eb; simpl in *.
  - destruct (String.eqb (hash ref) "") eqn:Eh; simpl in *; [auto|].
    destruct (checkout_err env); [discriminate|auto].
  - destruct (pull_res env); try discriminate; simpl;
    (destruct (String.eqb (hash ref) "") eqn:Eh; simpl in *; [auto|]);
    (destruct (checkout_err env); [discriminate|auto]).
Qed.

Lemma cloneRepo_incl env n i ref d s : incl (fs s) (fs (snd (cloneRepo env n i ref d s))).
Proof.
  unfold cloneRepo, Token. unfold_m.
  assert (H : incl (fs s) (if mem d (fs s) then fs s else fs s ++ [d])).
  { destruct (mem d (fs s)); [apply incl_refl|apply incl_appl, incl_refl]. }
  destruct (token_res env) as [tok [te|]]; simpl; [apply incl_refl|].
  destruct (clone_err env); simpl; [apply incl_refl|].
  destruct (worktree_err env); simpl; [exact H|].
  destruct (negb (String.eqb (branch ref) "")); [destruct (pull_res env)|]; simpl;
  destruct (negb (String.eqb (hash ref) "")); simpl; try destruct (checkout_err env); exact H.
Qed.

Lemma deferred_removes env d s :
  removeall_err env d = None -> ~ In d (fs (snd (InitCheckRun_deferred env d s))).
Proof.
  intros H. unfold InitCheckRun_deferred. unfold_m. unfold os_RemoveAll.
  destruct (mem d (fs s)) eqn:E.
  - rewrite H. simpl. intros Hin. apply filter_In in Hin as [_ Hn].
    rewrite String.eqb_refl in Hn. discriminate.
  - simpl. intros Hin. unfold mem in E.
    assert (existsb (String.eqb d) (fs s) = true) by (apply existsb_exists; exists d; split; [exact Hin|apply String.eqb_refl]).
    congruence.
Qed.

Lemma deferred_logs env d s e :
  removeall_err env d = Some e -> In d (fs s) ->
  In (("failed to cleanup dir " ++ Quote d ++ ": ") ++ e) (logs (snd (InitCheckRun_deferred env d s))).
Proof.
  intros H Hin. unfold InitCheckRun_deferred. unfold_m.
  assert (E : mem d (fs s) = true) by (apply existsb_exists; exists d; split; [exact Hin|apply String.eqb_refl]).
  rewrite E, H. simpl. apply in_or_app. right. left. reflexivity.
Qed.

Lemma keeps_body env app ev d e :
  removeall_err env d = Some e -> keeps_disk (InitCheckRun_body env app ev d).
Proof.
  intros H. unfold InitCheckRun_body, GetCheckFn.
  destruct (String.eqb (ev_checkName ev) "buildifier");
    [|destruct (String.eqb (ev_checkName ev) "bazel")]; keeps;
    try apply keeps_checkBuildifier; try apply keeps_checkBazelBuild;
    apply (keeps_RemoveAll_err env d e H).
Qed.

Lemma bind_fs {A B} (m : M A) (k : A -> M B) s :
  (forall a, keeps_disk (k a)) -> fs (snd (bind m k s)) = fs (snd (m s)).
Proof.
  intros H. unfold bind. destruct (m s) as [a s1]. apply (H a s1).
Qed.

Lemma Take_keeps_dir env app ev st :
  ev_requestedAction ev = buildifierFix ->
  clone_ok env (mkGitRef "" (ev_headBranch ev)) = true ->
  In (getTmpDir (ev_fullRepoName ev) buildifierFix) (fs (snd (TakeRequestedAction env app ev st))).
Proof.
  intros Hr Hc. unfold TakeRequestedAction. rewrite Hr, String.eqb_refl. cbv zeta.
  rewrite bind_fs.
  - apply cloneRepo_ok. exact Hc.
  - intros a. keeps; apply keeps_runCmd.
Qed.

Lemma body_removeall env f app ev d s :
  fst (InitCheckRun_body (with_removeall env f) app ev d s) = fst (InitCheckRun_body env app ev d s).
Proof.
  unfold InitCheckRun_body.
  change (GetCheckFn (with_removeall env f) (ev_checkName ev)) with (GetCheckFn env (ev_checkName ev)).
  destruct (GetCheckFn env (ev_checkName ev)) as [[c|] [e|]]; try reflexivity.
  unfold_m. destruct (c app d s) as [[r err] s1]. destruct err; [reflexivity|].
  destruct (createCompletedUpdateCheckRunOptions r (ev_checkName ev)) as [o|]; [|reflexivity].
  simpl. destruct (update_err env o); [reflexivity|].
  destruct (mem d _); [destruct (f d); destruct (removeall_err env d)|]; reflexivity.
Qed.

Lemma InitCheckRun_removeall env f app ev st :
  fst (InitCheckRun (with_removeall env f) app ev st) = fst (InitCheckRun env app ev st).
Proof.
  unfold InitCheckRun.
  change (cloneRepo (with_removeall env f)) with (cloneRepo env).
  unfold_m. simpl.
  destruct (update_err env _); [reflexivity|].
  destruct (cloneRepo env _ _ _ _ _) as [[e|] s1]; [reflexivity|].
  pose proof (body_removeall env f app ev (getTmpDir (ev_fullRepoName ev) (ev_checkName ev)) s1) as Hb.
  destruct (InitCheckRun_body (with_removeall env f) app ev _ s1) as [o s2].
  destruct (InitCheckRun_body env app ev _ s1) as [o' s2'].
  simpl in Hb. subst o'. unfold InitCheckRun_deferred. unfold_m. simpl.
  destruct (mem _ (fs s2)); [destruct (f _)|]; destruct (mem _ (fs s2')); try destruct (removeall_err env _); reflexivity.
Qed.

Lemma InitCheckRun_after_clone env app ev st :
  let dir := getTmpDir (ev_fullRepoName ev) (ev_checkName ev) in
  update_err env (in_progress_opts (ev_checkName ev)) = None ->
  clone_ok env (mkGitRef (ev_headSHA ev) "") = true ->
  exists s1, In dir (fs s1)
    /\ InitCheckRun env app ev st
       = (let (o, s2) := InitCheckRun_body env app ev dir s1 in
          (o, snd (InitCheckRun_deferred env dir s2))).
Proof.
  intros dir Hu Hc. unfold InitCheckRun. unfold bind at 1, UpdateCheckRun, ret at 1.
  unfold in_progress_opts in Hu. rewrite Hu. unfold log_printf, bind at 1.
  fold dir.
  destruct (cloneRepo_ok env (ev_fullRepoName ev) (ev_installationID ev) (mkGitRef (ev_headSHA ev) "") dir
              {| cwd := cwd st; fs := fs st; logs := logs st ++ ["updated Run"] |} Hc) as [H1 H2].
  unfold bind at 1.
  destruct (cloneRepo env _ _ _ _ _) as [c s1]. simpl in H1, H2. subst c.
  exists s1. split; [exact H2|].
  unfold bind at 1. destruct (InitCheckRun_body env app ev dir s1) as [o s2].
  unfold bind, ret. destruct (InitCheckRun_deferred env dir s2). reflexivity.
Qed.

(** The cleanup of the two webhook flows: once [cloneRepo] has succeeded,
    [InitCheckRun] removes the working copy however it leaves (error
    return, success or panic) when [os.RemoveAll] succeeds, and logs the
    failure of [os.RemoveAll] otherwise; its outcome is the same whatever
    [os.RemoveAll] answers.  [TakeRequestedAction] registers a deferred
    function whose [os.RemoveAll] is commented out: after a successful
    clone the directory is still there when it returns. *)
Theorem flows_cleanup (env : Env) (app : GithubApp) (ev : CheckRunEvent) (st : St) :
  (let dir := getTmpDir (ev_fullRepoName ev) (ev_checkName ev) in
   update_err env (in_progress_opts (ev_checkName ev)) = None ->
   clone_ok env (mkGitRef (ev_headSHA ev) "") = true ->
   (removeall_err env dir = None -> ~ In dir (fs (snd (InitCheckRun env app ev st))))
   /\ (forall e, removeall_err env dir = Some e ->
        In (("failed to cleanup dir " ++ Quote dir ++ ": ") ++ e) (logs (snd (InitCheckRun env app ev st)))))
  /\ (forall f, fst (InitCheckRun (with_removeall env f) app ev st) = fst (InitCheckRun env app ev st))
  /\ (ev_requestedAction ev = buildifierFix ->
      clone_ok env (mkGitRef "" (ev_headBranch ev)) = true ->
      In (getTmpDir (ev_fullRepoName ev) buildifierFix) (fs (snd (TakeRequestedAction env app ev st)))).
Proof.
  split; [|split].
  - intros dir Hu Hc.
    destruct (InitCheckRun_after_clone env app ev st Hu Hc) as [s1 [Hin ->]]. fold dir in Hin |- *.
    split.
    + intros Hr. destruct (InitCheckRun_body env app ev dir s1) as [o s2].
      apply deferred_removes. exact Hr.
    + intros e Hr. destruct (keeps_body env app ev dir e Hr s1) as [Hf _].
      destruct (InitCheckRun_body env app ev dir s1) as [o s2]. simpl in Hf.
      apply deferred_logs; [exact Hr|]. rewrite Hf. exact Hin.
  - intros f. apply InitCheckRun_removeall.
  - apply Take_keeps_dir.
Qed.

(** C9 (code bug): on the fix action of event [ev0] (repository [o/r],
    branch [main]) with every command, the clone and the token succeeding,
    [TakeRequestedAction] returns no error and the working copy
    [/tmp/o/r/buildifier-fix] is still on disk afterwards, while
    [InitCheckRun] removes its own one and the claim requires both flows
    to delete theirs. *)
Lemma takeaction_leaves_dir :
  fst (TakeRequestedAction (env_ok (fun _ _ => mkProc "" "" None)) app0 ev0 st0) = None
  /\ fs (snd (TakeRequestedAction (env_ok (fun _ _ => mkProc "" "" None)) app0 ev0 st0))
     = ["/tmp/o/r/buildifier-fix"]
  /\ fs (snd (InitCheckRun (env_ok (fun _ _ => mkProc "" "" None)) app0 ev0 st0)) = [].
Proof. repeat split; vm_compute; reflexivity. Qed.

(* ================================================================== *)
(** ** Paths of the annotations *)

Lemma la_app (s1 s2 : string) :
  list_ascii_of_string (s1 ++ s2) = app (list_ascii_of_string s1) (list_ascii_of_string s2).
Proof. induction s1 as [|c s1 IH]; simpl; [reflexivity|]. now rewrite IH. Qed.

Lemma prefix_app (p s : string) : String.prefix p s = true -> exists u, s = p ++ u.
Proof.
  revert s; induction p as [|a p IH]; intros s H; [exists s; reflexivity|].
  destruct s as [|b s]; simpl in H; [discriminate|].
  destruct (ascii_dec a b) as [<-|]; [|discriminate].
  destruct (IH s H) as [u ->]. exists u. reflexivity.
Qed.

Lemma split_char_nosep (sep : ascii) (s e : string) :
  In e (split_char sep s) -> ~ In sep (list_ascii_of_string e).
Proof.
  revert e; induction s as [|c s IH]; intros e; simpl.
  - intros [<-|[]]. simpl. tauto.
  - destruct (Ascii.eqb_spec c sep) as [->|Hne].
    + intros [<-|H]; [simpl; tauto|]. exact (IH e H).
    + destruct (split_char sep s) as [|x xs] eqn:E.
      * intros [<-|[]]. simpl. intros [H|[]]. congruence.
      * intros [<-|H].
        -- simpl. intros [H|H]; [congruence|]. apply (IH x); [left; reflexivity|exact H].
        -- apply IH. right. exact H.
Qed.


Lemma clean_elems_ok (rooted : bool) (out es : list string) :
  (forall e, In e es -> ~ In Separator (list_ascii_of_string e)) ->
  (forall e, In e out -> elem_ok e) ->
  forall e, In e (clean_elems rooted out es) -> elem_ok e.
Proof.
  revert out; induction es as [|x es IH]; intros out Hes Hout; simpl; [exact Hout|].
  assert (Hes' : forall e, In e es -> ~ In Separator (list_ascii_of_string e)) by (intros; apply Hes; right; assumption).
  assert (Hdd : elem_ok "..") by (split; [discriminate|simpl; intros [H|[H|[]]]; discriminate]).
  destruct (String.eqb x "" || String.eqb x ".") eqn:E1; [apply IH; assumption|].
  destruct (String.eqb_spec x "..") as [->|Hn].
  - destruct out as [|y out'].
    + destruct rooted; apply IH; try assumption.
      intros e [<-|[]]. exact Hdd.
    + destruct (String.eqb y ".."); apply IH; try assumption.
      * intros e [<-|H]; [exact Hdd|apply Hout; exact H].
      * intros e H. apply Hout. right. exact H.
  - apply IH; [assumption|]. intros e [<-|H]; [|apply Hout; exact H].
    split; [|apply Hes; left; reflexivity].
    intros ->. simpl in E1. discriminate.
Qed.

Lemma elem_ok_head (e : string) : elem_ok e ->
  exists c l', list_ascii_of_string e = c :: l' /\ c <> Separator.
Proof.
  intros [Hne Hs]. destruct e as [|c e]; [congruence|].
  exists c, (list_ascii_of_string e). split; [reflexivity|].
  intros ->. apply Hs. left. reflexivity.
Qed.

Lemma join_slash_ok (es : list string) :
  es <> [] -> (forall e, In e es -> elem_ok e) ->
  slashes_ok (list_ascii_of_string (join_slash es))
  /\ exists c l', list_ascii_of_string (join_slash es) = c :: l' /\ c <> Separator.
Proof.
  induction es as [|e es IH]; intros Hne Hok; [congruence|].
  assert (He : elem_ok e) by (apply Hok; left; reflexivity).
  destruct es as [|e2 es].
  - simpl. split; [|apply elem_ok_head; exact He].
    intros x y Hxy. exfalso. apply (proj2 He). rewrite Hxy. apply in_or_app. right. left. reflexivity.
  - destruct IH as [IH1 IH2]; [discriminate|intros; apply Hok; right; assumption|].
    change (join_slash (e :: e2 :: es)) with (e ++ "/" ++ join_slash (e2 :: es)).
    rewrite !la_app. cbn [list_ascii_of_string app].
    set (J := list_ascii_of_string (join_slash (e2 :: es))) in *.
    split.
    + intros x y Hxy. change "/"%char with Separator in Hxy.
      apply app_eq_app in Hxy as [l [[H1 H2]|[H1 H2]]].
      * destruct l as [|c l].
        -- rewrite app_nil_r in H1. subst x. simpl in H2. injection H2 as <-.
           split; [intros E; destruct (elem_ok_head e He) as [c [l' [E' _]]]; congruence|exact IH2].
        -- exfalso. injection H2 as <- _. apply (proj2 He). rewrite H1.
           apply in_or_app. right. left. reflexivity.
      * destruct l as [|c l].
        -- rewrite app_nil_r in H1. subst x. simpl in H2. injection H2 as <-.
           split; [intros E; destruct (elem_ok_head e He) as [c [l' [E' _]]]; congruence|exact IH2].
        -- injection H2 as <- H2. destruct (IH1 l y H2) as [_ Hy].
           split; [|exact Hy]. rewrite H1. destruct (list_ascii_of_string e); discriminate.
    + destruct (elem_ok_head e He) as [c [l' [E' Hc]]]. rewrite E'.
      exists c, (app l' (Separator :: J)). split; [reflexivity|exact Hc].
Qed.

Lemma Clean_elems_ok (p : string) :
  forall e, In e (rev (clean_elems (HasPrefix p "/") [] (Split p "/"%char))) -> elem_ok e.
Proof.
  intros e He. apply in_rev in He. revert e He. apply clean_elems_ok; [|intros e []].
  intros e He. exact (split_char_nosep Separator p e He).
Qed.

Lemma Clean_rooted (p : string) : HasPrefix p "/" = true ->
  exists J, Clean p = String "/" J
    /\ (J = "" \/ (slashes_ok (list_ascii_of_string J)
                  /\ exists c l', list_ascii_of_string J = c :: l' /\ c <> Separator)).
Proof.
  intros H. unfold Clean. rewrite H.
  exists (join_slash (rev (clean_elems true [] (Split p "/"%char)))). split; [reflexivity|].
  pose proof (Clean_elems_ok p) as Hok. rewrite H in Hok.
  destruct (rev (clean_elems true [] (Split p "/"%char))) as [|e es] eqn:E.
  - left. reflexivity.
  - right. apply join_slash_ok; [discriminate|exact Hok].
Qed.

Lemma HasPrefix_slash (l : list ascii) (c : ascii) (s : string) :
  list_ascii_of_string s = c :: l -> c <> Separator -> HasPrefix s "/" = false.
Proof.
  destruct s as [|d s]; [discriminate|]. intros E Hc. cbn in E. injection E as -> _.
  unfold HasPrefix.
  change (String.prefix "/" (String c s))
    with (match ascii_dec "/"%char c with left _ => String.prefix "" s | right _ => false end).
  destruct (ascii_dec "/"%char c) as [E|]; [|reflexivity].
  exfalso. apply Hc. rewrite <- E. reflexivity.
Qed.

Lemma Clean_unrooted (p : string) : HasPrefix p "/" = false -> HasPrefix (Clean p) "/" = false.
Proof.
  intros H. unfold Clean. rewrite H.
  pose proof (Clean_elems_ok p) as Hok. rewrite H in Hok.
  destruct (rev (clean_elems false [] (Split p "/"%char))) as [|e es] eqn:E; [reflexivity|].
  destruct (join_slash_ok (e :: es) ltac:(discriminate) Hok) as [_ [c [l' [E1 Hc]]]].
  destruct (String.eqb (join_slash (e :: es)) "") eqn:E2.
  - reflexivity.
  - exact (HasPrefix_slash _ _ _ E1 Hc).
Qed.

Lemma adv_ge (f : nat) (s : list ascii) (k : nat) : k <= adv f s k.
Proof.
  revert k; induction f as [|f IH]; intros k; simpl; [lia|].
  destruct (nth_error s k) as [c|]; [|lia].
  destruct (Ascii.eqb c Separator); [lia|]. specialize (IH (S k)). lia.
Qed.

Lemma adv_le (f : nat) (s : list ascii) (k : nat) : k <= length s -> adv f s k <= length s.
Proof.
  revert k; induction f as [|f IH]; intros k Hk; simpl; [lia|].
  destruct (nth_error s k) as [c|] eqn:E; [|lia].
  destruct (Ascii.eqb c Separator); [lia|].
  apply IH. apply nth_error_Some. congruence.
Qed.

Lemma adv_stable (f : nat) (s : list ascii) (k : nat) :
  length s - k <= f -> adv (S f) s k = adv f s k.
Proof.
  revert k; induction f as [|f IH]; intros k Hk.
  - simpl. replace (nth_error s k) with (@None ascii); [reflexivity|].
    symmetry. apply nth_error_None. lia.
  - change (adv (S (S f)) s k) with
      (match nth_error s k with
       | Some c => if Ascii.eqb c Separator then k else adv (S f) s (S k)
       | None => k end).
    change (adv (S f) s k) with
      (match nth_error s k with
       | Some c => if Ascii.eqb c Separator then k else adv f s (S k)
       | None => k end).
    destruct (nth_error s k) as [c|] eqn:E; [|reflexivity].
    destruct (Ascii.eqb c Separator); [reflexivity|].
    apply IH. assert (k < length s) by (apply nth_error_Some; congruence). lia.
Qed.

Lemma adv_fuel (f1 f2 : nat) (s : list ascii) (k : nat) :
  length s - k <= f1 -> f1 <= f2 -> adv f1 s k = adv f2 s k.
Proof.
  intros H1 H2. induction H2 as [|f2 H2 IH]; [reflexivity|].
  rewrite adv_stable by lia. exact IH.
Qed.

Lemma adv_app (f : nat) (b u : list ascii) (k : nat) :
  k <= length b -> length b - k <= f ->
  adv f (app b (Separator :: u)) k = adv f b k.
Proof.
  revert k; induction f as [|f IH]; intros k Hk Hf; [reflexivity|].
  cbn [adv].
  destruct (Nat.eq_dec k (length b)) as [->|Hne].
  - rewrite nth_error_app2 by lia. rewrite Nat.sub_diag. cbn [nth_error].
    replace (nth_error b (length b)) with (@None ascii) by (symmetry; apply nth_error_None; lia).
    reflexivity.
  - rewrite nth_error_app1 by lia.
    destruct (nth_error b k) as [c|]; [|reflexivity].
    destruct (Ascii.eqb c Separator); [reflexivity|]. apply IH; lia.
Qed.

Lemma slice_app (b x : list ascii) (i j : nat) :
  i <= j -> j <= length b -> slice (app b x) i j = slice b i j.
Proof.
  intros Hij Hj. unfold slice. rewrite skipn_app.
  rewrite firstn_app. rewrite length_skipn.
  replace (j - i - (length b - i)) with 0 by lia. simpl. apply app_nil_r.
Qed.

Lemma rel_loop_last (f : nat) (b u : list ascii) (c : ascii) :
  c <> Separator ->
  let t := app b (Separator :: c :: u) in
  exists ti, rel_loop (S f) b t (length b) (length b) (S (length b)) (S (length b))
             = (length b, length b, S (length b), ti).
Proof.
  intros Hc t. cbn [rel_loop].
  assert (Hb : adv (length b) b (length b) = length b).
  { destruct (length b) eqn:E; [reflexivity|]. cbn [adv].
    replace (nth_error b (S n)) with (@None ascii) by (symmetry; apply nth_error_None; lia).
    reflexivity. }
  rewrite Hb.
  assert (Ht : nth_error t (S (length b)) = Some c).
  { unfold t. rewrite nth_error_app2 by lia. replace (S (length b) - length b) with 1 by lia. reflexivity. }
  assert (Hlt : length t = length b + 2 + length u) by (unfold t; rewrite length_app; simpl; lia).
  remember (adv (length t) t (S (length b))) as j eqn:Ej.
  assert (Hj : S (S (length b)) <= j).
  { rewrite Ej. rewrite Hlt. replace (length b + 2 + length u) with (S (length b + 1 + length u)) by lia.
    cbn [adv]. rewrite Ht.
    destruct (Ascii.eqb_spec c Separator) as [E|_]; [contradiction|]. apply adv_ge. }
  assert (Hne : String.eqb (sliceb t (S (length b)) j) (sliceb b (length b) (length b)) = false).
  { unfold sliceb, slice. rewrite Nat.sub_diag. cbn [firstn string_of_list_ascii].
    unfold t. rewrite skipn_app. replace (S (length b) - length b) with 1 by lia.
    rewrite skipn_all2 by lia. simpl.
    destruct (j - S (length b)) eqn:E; [lia|]. reflexivity. }
  rewrite Hne. simpl. exists j. reflexivity.
Qed.

Lemma rel_loop_under (f : nat) (b u : list ascii) (c : ascii) (k : nat) :
  c <> Separator -> k <= length b -> length b - k + 2 <= f ->
  exists ti, rel_loop f b (app b (Separator :: c :: u)) k k k k
             = (length b, length b, S (length b), ti).
Proof.
  intros Hc. revert k; induction f as [|f IH]; intros k Hk Hf; [lia|].
  set (t := app b (Separator :: c :: u)).
  assert (Hlt : length t = length b + 2 + length u) by (unfold t; rewrite length_app; simpl; lia).
  cbn [rel_loop].
  assert (Eti : adv (length t) t k = adv (length b) b k).
  { unfold t at 2. rewrite adv_app by lia. symmetry. apply adv_fuel; lia. }
  rewrite Eti.
  set (j := adv (length b) b k).
  assert (Hj1 : k <= j) by apply adv_ge.
  assert (Hj2 : j <= length b) by (apply adv_le; exact Hk).
  assert (Hs : sliceb t k j = sliceb b k j) by (unfold sliceb, t; rewrite slice_app by lia; reflexivity).
  rewrite Hs, String.eqb_refl. cbn [negb].
  replace (Nat.ltb j (length t)) with true by (symmetry; apply Nat.ltb_lt; lia).
  destruct (Nat.ltb_spec j (length b)) as [Hlt'|Hge].
  - apply IH; lia.
  - replace j with (length b) by lia.
    destruct f as [|f]; [lia|].
    apply rel_loop_last. exact Hc.
Qed.

Lemma la_sola (l : list ascii) : list_ascii_of_string (string_of_list_ascii l) = l.
Proof. apply list_ascii_of_string_of_list_ascii. Qed.

Lemma HasPrefix_root (w : string) : HasPrefix (String "/" w) "/" = true.
Proof. unfold HasPrefix. simpl. destruct w; reflexivity. Qed.

Lemma Rel_under (root p : string) : under_root root p = true ->
  snd (Rel root p) = None /\ fst (Rel root p) <> "" /\ HasPrefix (fst (Rel root p)) "/" = false.
Proof.
  unfold under_root. intros H.
  apply andb_true_iff in H as [H Hq]. apply andb_true_iff in H as [Hr _].
  unfold Rel.
  destruct (String.eqb (Clean p) (Clean root)) eqn:Eq.
  { split; [reflexivity|split; [discriminate|reflexivity]]. }
  apply orb_true_iff in Hq as [Hq|Hq]; [congruence|].
  apply prefix_app in Hq as [u Hu]. apply prefix_app in Hr as [v Hv].
  (* the target is rooted, so cleaning left no [//] in it *)
  assert (Hp : HasPrefix p "/" = true).
  { destruct (HasPrefix p "/") eqn:E; [reflexivity|].
    apply Clean_unrooted in E. rewrite Hu in E.
    assert (HasPrefix ((Clean root ++ "/") ++ u) "/" = true) by (rewrite Hv; apply HasPrefix_root).
    congruence. }
  destruct (Clean_rooted p Hp) as [J [EJ HJ]].
  rewrite Hv in Hu. rewrite EJ in Hu. cbn [append] in Hu. injection Hu as Hu.
  destruct HJ as [->|[HJ _]].
  { destruct v; discriminate. }
  rewrite Hu, !la_app in HJ. cbn [list_ascii_of_string app] in HJ.
  destruct (HJ (list_ascii_of_string v) (list_ascii_of_string u) ltac:(rewrite <- app_assoc; reflexivity)) as [_ [c [l' [Eu Hc]]]].
  assert (Et : list_ascii_of_string (Clean p)
               = app (list_ascii_of_string (Clean root)) (Separator :: c :: l')).
  { rewrite EJ, Hu, Hv. simpl. rewrite !la_app. simpl. rewrite Eu, <- !app_assoc. reflexivity. }
  assert (Eb : String.eqb (Clean root) "." = false) by (rewrite Hv; reflexivity).
  assert (Ebs : HasPrefix (Clean root) "/" = true) by (rewrite Hv; apply HasPrefix_root).
  assert (Ets : HasPrefix (Clean p) "/" = true) by (rewrite EJ; apply HasPrefix_root).
  rewrite Eb, Ebs, Ets. cbn [Bool.eqb negb].
  rewrite Et.
  set (b := list_ascii_of_string (Clean root)).
  destruct (rel_loop_under (S (length b + length (app b (Separator :: c :: l')))) b l' c 0 Hc
              ltac:(lia) ltac:(rewrite length_app; simpl; lia)) as [ti Eti].
  rewrite Eti.
  assert (E0 : String.eqb (sliceb b (length b) (length b)) ".." = false)
    by (unfold sliceb, slice; rewrite Nat.sub_diag; reflexivity).
  rewrite E0, Nat.eqb_refl. cbn [negb fst snd].
  assert (Es : sliceb (app b (Separator :: c :: l')) (S (length b)) (length (app b (Separator :: c :: l')))
               = String c (string_of_list_ascii l')).
  { unfold sliceb, slice. rewrite skipn_app. replace (S (length b) - length b) with 1 by lia.
    rewrite skipn_all2 by lia. rewrite length_app. simpl.
    replace (length b + S (S (length l')) - S (length b)) with (S (length l')) by lia.
    simpl. rewrite firstn_all. reflexivity. }
  rewrite Es. split; [reflexivity|split; [discriminate|]].
  apply (HasPrefix_slash l' c); [|exact Hc]. simpl. rewrite la_sola. reflexivity.
Qed.

Lemma Rel_err (a b e : string) : snd (Rel a b) = Some e -> fst (Rel a b) = "".
Proof.
  unfold Rel.
  destruct (String.eqb (Clean b) (Clean a)); [discriminate|].
  destruct (negb (Bool.eqb _ _)); [reflexivity|].
  destruct (rel_loop _ _ _ _ _ _ _) as [[[b0 bi] t0] ti].
  destruct (String.eqb (sliceb _ b0 bi) ".."); [reflexivity|].
  destruct (negb (Nat.eqb b0 _)); discriminate.
Qed.

Lemma buildifier_step_fields (dir : string) (fl : FLoop) (line : string) :
  f_annotations (buildifier_step dir fl line) = app (f_annotations fl) [buildifier_annotation dir line]
  /\ f_logs (buildifier_step dir fl line)
     = app (app (f_logs fl) ["scanner: " ++ Quote line])
           (match snd (Rel dir (file_part line)) with
            | Some e => ["failed to get reletive path: " ++ e]
            | None => []
            end).
Proof.
  unfold buildifier_step, buildifier_annotation, file_part, Split.
  destruct (split_char_cons "#"%char line) as [x [xs ->]]. cbn [hd].
  destruct (Rel dir (TrimSpace x)) as [rel [err|]]; cbn [fst snd f_annotations f_logs];
    [split; reflexivity|]. rewrite app_nil_r. split; reflexivity.
Qed.

Lemma lineCommentMatch_file (l : string) : is_diag l = true ->
  exists n c m, lineCommentMatch l = Some (Path (line_annotation l), n, c, m).
Proof.
  unfold is_diag, line_annotation. intros H. apply andb_true_iff in H as [_ H].
  destruct (lineCommentMatch l) as [[[[f n] c] m]|]; [|discriminate].
  exists n, c, m. reflexivity.
Qed.

(** C6 (amended): every annotation of the formatting-check parser is
    made of one line of the tool's output; when the line's file part
    lies under the root directory (lexically, after [filepath.Clean]),
    its path is non-empty and does not start with ["/"]: it is relative
    to the root.  When [filepath.Rel] fails, the failure is logged, the
    scan goes on, and the line still yields an annotation, with an empty
    path.  The build-log parser copies the file field matched by
    [lineCommentRegex] as it is into the annotation's path. *)
Theorem annotation_paths (env : Env) (ga : GithubApp) (dir : string) (st : St) (r : Result) e :
  (fst (checkBuildifier env ga dir st) = (Some r, e) ->
   Forall (fun a => exists l, a = buildifier_annotation dir l
             /\ (under_root dir (file_part l) = true -> Path a <> "" /\ HasPrefix (Path a) "/" = false)
             /\ (snd (Rel dir (file_part l)) <> None -> Path a = ""))
          (Annotations r))
  /\ (forall (fl : FLoop) (line err : string), snd (Rel dir (file_part line)) = Some err ->
        f_annotations (buildifier_step dir fl line) = app (f_annotations fl) [buildifier_annotation dir line]
        /\ Path (buildifier_annotation dir line) = ""
        /\ f_logs (buildifier_step dir fl line)
           = app (f_logs fl) ["scanner: " ++ Quote line; "failed to get reletive path: " ++ err])
  /\ (fst (checkBazelBuild env ga dir st) = (Some r, e) ->
      Forall (fun a => exists l n c m, In l (diag_lines (scan_lines (stdout (run env "bb" (bb_args ga)))))
                         /\ lineCommentMatch l = Some (Path a, n, c, m))
             (Annotations r)).
Proof.
  split; [|split].
  - intros H. apply checkBuildifier_some in H as [res [-> [Ha [_ _]]]].
    destruct (buildifier_finish_fields res (map (buildifier_annotation dir)
      (scan_lines (stderr (run env "buildifier" (buildifier_args dir))))) Ha) as [H0 H1].
    assert (HF : Forall (fun a => exists l, a = buildifier_annotation dir l
             /\ (under_root dir (file_part l) = true -> Path a <> "" /\ HasPrefix (Path a) "/" = false)
             /\ (snd (Rel dir (file_part l)) <> None -> Path a = ""))
             (map (buildifier_annotation dir) (scan_lines (stderr (run env "buildifier" (buildifier_args dir)))))).
    { apply Forall_forall. intros a Hin. apply in_map_iff in Hin as [l [<- _]].
      exists l. split; [reflexivity|split].
      - intros Hu. destruct (Rel_under dir (file_part l) Hu) as [_ [H2 H3]]. split; assumption.
      - intros Hn. unfold buildifier_annotation. cbn [Path].
        destruct (snd (Rel dir (file_part l))) as [err|] eqn:E; [|contradiction].
        exact (Rel_err _ _ _ E). }
    destruct (map (buildifier_annotation dir) _) as [|a0 l0] eqn:E.
    + destruct (H0 eq_refl) as [_ [-> _]]. constructor.
    + destruct (H1 ltac:(discriminate)) as [_ [-> _]]. exact HF.
  - intros fl line err Herr. destruct (buildifier_step_fields dir fl line) as [Ha Hl].
    split; [exact Ha|split].
    + unfold buildifier_annotation. cbn [Path]. exact (Rel_err _ _ _ Herr).
    + rewrite Hl, Herr, <- app_assoc. reflexivity.
  - intros H. apply checkBazelBuild_some in H as [-> _].
    rewrite bazel_finish_annotations, bazel_loop_annotations by reflexivity.
    apply Forall_forall. intros a Hin. apply in_map_iff in Hin as [l [<- Hl]].
    apply dedup_in in Hl as [Hl _].
    assert (Hd : is_diag l = true) by (unfold diag_lines in Hl; apply filter_In in Hl as [_ Hd]; exact Hd).
    destruct (lineCommentMatch_file l Hd) as [n [c [m Hm]]].
    exists l, n, c, m. split; assumption.
Qed.


(** The C6 theorem on the formatting-check example, and on a line whose
    relative path cannot be computed. *)
Lemma annotation_paths_witness :
  fst (checkBuildifier envF app0 "/tmp/r" st0) = (Some rF, None)
  /\ Forall (fun a => exists l, a = buildifier_annotation "/tmp/r" l
             /\ (under_root "/tmp/r" (file_part l) = true -> Path a <> "" /\ HasPrefix (Path a) "/" = false)
             /\ (snd (Rel "/tmp/r" (file_part l)) <> None -> Path a = ""))
          (Annotations rF)
  /\ snd (Rel "/tmp/r" (file_part "pkg/BUILD")) = Some "Rel: can't make pkg/BUILD relative to /tmp/r"
  /\ Path (buildifier_annotation "/tmp/r" "pkg/BUILD") = "".
Proof.
  assert (H : fst (checkBuildifier envF app0 "/tmp/r" st0) = (Some rF, None)) by (vm_compute; reflexivity).
  assert (He : snd (Rel "/tmp/r" (file_part "pkg/BUILD")) = Some "Rel: can't make pkg/BUILD relative to /tmp/r")
    by (vm_compute; reflexivity).
  split; [exact H|split; [|split; [exact He|]]].
  - exact (proj1 (annotation_paths envF app0 "/tmp/r" st0 rF None) H).
  - exact (proj1 (proj2 (proj1 (proj2 (annotation_paths envF app0 "/tmp/r" st0 rF None))
             (mkFLoop [] []) "pkg/BUILD" _ He))).
Defined.

(** The build-log parser keeps an absolute path under the root as it is. *)
Lemma bazel_path_verbatim :
  option_map (fun r => map Path (Annotations r))
    (fst (fst (checkBazelBuild (env_ok (fun _ _ => mkProc ("/tmp/r/pkg/BUILD:1:1: x" ++ nl) "" None))
                               app0 "/tmp/r" st0)))
  = Some ["/tmp/r/pkg/BUILD"]
  /\ under_root "/tmp/r" "/tmp/r/pkg/BUILD" = true
  /\ HasPrefix "/tmp/r/pkg/BUILD" "/" = true.
Proof. vm_compute. repeat split. Qed.

(* ================================================================== *)
(** ** Further properties of the code *)

Lemma str_app_cancel_l (s a b : string) : s ++ a = s ++ b -> a = b.
Proof. induction s as [|c s IH]; simpl; [auto|]. intros H. injection H. exact IH. Qed.

(** getTmpDir: two check names give two directories of one repository, and the directories of the fix action and of the checks are pairwise distinct. *)
Theorem tmp_dirs_distinct (r c1 c2 : string) :
  (c1 <> c2 -> getTmpDir r c1 <> getTmpDir r c2)
  /\ NoDup (map (getTmpDir r) (buildifierFix :: checks)).
Proof.
  assert (H : forall c1 c2, c1 <> c2 -> getTmpDir r c1 <> getTmpDir r c2).
  { intros a b Hab E. unfold getTmpDir in E.
    apply str_app_cancel_l, str_app_cancel_l, str_app_cancel_l in E. contradiction. }
  split; [apply H|].
  cbn [map buildifierFix checks].
  repeat constructor; cbn [In]; intros HH; repeat destruct HH as [HH|HH]; try contradiction;
    revert HH; apply H; discriminate.
Qed.

(** GetCheckFn: every name of [checks] has a check function and no error; any other name gives no function and the error "checkFn not found for %q". *)
Theorem checks_have_runners (env : Env) :
  (forall c, In c checks -> snd (GetCheckFn env c) = None /\ fst (GetCheckFn env c) <> None)
  /\ (forall c, ~ In c checks -> GetCheckFn env c = (None, Some ("checkFn not found for " ++ Quote c))).
Proof.
  split.
  - intros c [<-|[<-|[]]]; split; discriminate || reflexivity.
  - intros c Hc. unfold GetCheckFn.
    destruct (String.eqb_spec c "buildifier") as [->|_]; [contradict Hc; left; reflexivity|].
    destruct (String.eqb_spec c "bazel") as [->|_]; [contradict Hc; right; left; reflexivity|].
    reflexivity.
Qed.

Lemma bazel_empty_stdout (env : Env) (app : GithubApp) (dir : string) (st : St) :
  getwd_err env = None -> chdir_err env dir = None ->
  String.length (stdout (run env "bb" (bb_args app))) = 0 ->
  fst (checkBazelBuild env app dir st) = (None, runCmd_err env "bb" (bb_args app))
  /\ cwd (snd (checkBazelBuild env app dir st)) = dir.
Proof.
  unfold checkBazelBuild, runCmd_err. unfold_m. cbv zeta. fold (bb_args app).
  generalize (run env "bb" (bb_args app)); intros p.
  intros Hg Hc Hl. rewrite Hg, Hc. simpl.
  destruct (perr p); simpl; destruct (Nat.ltb 0 (String.length (stderr p))); simpl; rewrite Hl; auto.
Qed.

(** checkBazelBuild: with an empty stdout it returns no Result, the error of runCmd, and stays in [dir]; when it returns a Result the working directory is the one it started in. *)
Theorem checkBazelBuild_cwd (env : Env) (app : GithubApp) (dir : string) (st : St) :
  (getwd_err env = None -> chdir_err env dir = None ->
   String.length (stdout (run env "bb" (bb_args app))) = 0 ->
     fst (checkBazelBuild env app dir st) = (None, runCmd_err env "bb" (bb_args app))
     /\ cwd (snd (checkBazelBuild env app dir st)) = dir)
  /\ (forall r e, fst (checkBazelBuild env app dir st) = (Some r, e) ->
        cwd (snd (checkBazelBuild env app dir st)) = cwd st).
Proof.
  split; [apply bazel_empty_stdout|].
  unfold checkBazelBuild. unfold_m. cbv zeta. fold (bb_args app).
  generalize (run env "bb" (bb_args app)); intros p.
  intros r e.
  destruct (getwd_err env); simpl; [discriminate|].
  destruct (chdir_err env dir); simpl; [discriminate|].
  destruct (perr p); simpl; destruct (Nat.ltb 0 (String.length (stderr p))); simpl;
  destruct (Nat.eqb (String.length (stdout p)) 0); simpl; try discriminate;
  destruct (chdir_err env (cwd st)) eqn:E; simpl; try discriminate; auto.
Qed.

Lemma quote_bytes_app (a b : string) : quote_bytes (a ++ b) = quote_bytes a ++ quote_bytes b.
Proof. induction a as [|c a IH]; simpl; [reflexivity|]. rewrite IH. symmetry. apply str_app_assoc. Qed.

Lemma runCmd_logs_err (env : Env) (t : string) (a : list string) (s : St) (e : string) :
  perr (run env t a) = Some e ->
  In (("check failed for cmd " ++ Quote (String.concat " " (cmd_path env t :: a)) ++ ": ") ++ e)
     (logs (snd (runCmd env t a s))).
Proof.
  intros H. unfold runCmd. unfold_m. cbv zeta. rewrite H. unfold log_printf. cbn [snd logs].
  destruct (Nat.ltb 0 _); cbn [snd logs];
    rewrite ?in_app_iff; simpl; tauto.
Qed.

Lemma bind_logs_incl {A B} (m : M A) (k : A -> M B) (s : St) :
  (forall a, keeps_disk (k a)) -> incl (logs (snd (m s))) (logs (snd (bind m k s))).
Proof.
  intros H. unfold bind. destruct (m s) as [a s1]. apply (H a s1).
Qed.

(** checkBazelBuild: when bb fails, the logged command line (the path of
    bb, then its arguments) holds the BuildBuddy API key in clear. *)
Theorem bb_key_logged (env : Env) (app : GithubApp) (dir : string) (st : St) (e : string) :
  getwd_err env = None -> chdir_err env dir = None ->
  perr (run env "bb" (bb_args app)) = Some e -> plain (bbAPIKey app) = true ->
  In ("check failed for cmd " ++ dq ++ quote_bytes (cmd_path env "bb")
        ++ " build //... --remote_header=x-buildbuddy-api-key="
        ++ bbAPIKey app ++ dq ++ ": " ++ e)
     (logs (snd (checkBazelBuild env app dir st))).
Proof.
  intros Hg Hc Hp Hk. unfold checkBazelBuild. unfold bind at 1, os_Getwd. rewrite Hg.
  unfold bind at 1, os_Chdir. rewrite Hc. fold (bb_args app).
  apply bind_logs_incl.
  - intros a. keeps; apply keeps_runCmd.
  - match goal with |- In _ (logs (snd (runCmd env "bb" (bb_args app) ?s))) =>
      pose proof (runCmd_logs_err env "bb" (bb_args app) s e Hp) as Hin end.
    revert Hin. match goal with |- In ?x ?L -> In ?y ?L => replace x with y; [auto|] end.
    unfold Quote. cbn [String.concat bb_args]. rewrite !quote_bytes_app, (quote_bytes_plain _ Hk).
    rewrite !str_app_assoc. reflexivity.
Qed.

Lemma runCmd_shape (env : Env) (t : string) (a : list string) (s : St) :
  fst (runCmd env t a s) = (stdout (run env t a), stderr (run env t a), runCmd_err env t a)
  /\ cwd (snd (runCmd env t a s)) = cwd s /\ fs (snd (runCmd env t a s)) = fs s.
Proof.
  unfold runCmd, runCmd_err. unfold_m. cbv zeta.
  destruct (perr (run env t a)); simpl; destruct (Nat.ltb 0 _); simpl; auto.
Qed.

Lemma cloneRepo_cwd (env : Env) n i ref d s : cwd (snd (cloneRepo env n i ref d s)) = cwd s.
Proof.
  unfold cloneRepo, Token. unfold_m.
  destruct (token_res env) as [tok [te|]]; simpl; [reflexivity|].
  destruct (clone_err env); simpl; [reflexivity|].
  destruct (worktree_err env); simpl; [reflexivity|].
  destruct (negb (String.eqb (branch ref) "")); [destruct (pull_res env)|]; simpl;
  destruct (negb (String.eqb (hash ref) "")); simpl; try destruct (checkout_err env); reflexivity.
Qed.

(** Running [runCmd] and continuing with [k]. *)
Lemma bind_runCmd {B} (env : Env) t a (k : _ -> M B) s :
  bind (runCmd env t a) k s
  = k (stdout (run env t a), stderr (run env t a), runCmd_err env t a) (snd (runCmd env t a s)).
Proof.
  unfold bind. destruct (runCmd_shape env t a s) as [H _].
  destruct (runCmd env t a s) as [r s']. simpl in H. subst r. reflexivity.
Qed.

Lemma Take_prefix (env : Env) (app : GithubApp) (ev : CheckRunEvent) (st : St) :
  ev_requestedAction ev = buildifierFix -> fix_ready env ev = true ->
  exists s2, cwd s2 = fix_dir ev /\
   TakeRequestedAction env app ev st
   = bind (runCmd env "git" (checkout_args ev)) (fun x =>
       match x with (_, stdErr, err) =>
       (if Nat.eqb (String.length stdErr) 0 then ret tt else log_printf stdErr) ;;
       match err with
       | Some e => ret (Some ("failed to checkout branch " ++ ev_headBranch ev ++ ": " ++ e))
       | None =>
         '(_, _, err) <- runCmd env "buildifier" (fix_args ev) ;;
         match err with
         | Some e => ret (Some e)
         | None =>
           log_printf "Creating commit" ;;
           '(_, stdErr, err) <- runCmd env "git" commit_args ;;
           (if Nat.eqb (String.length stdErr) 0 then ret tt else log_printf stdErr) ;;
           match err with
           | Some e => ret (Some ("failed to create commit: " ++ e))
           | None =>
             '(_, stdErr, err) <- runCmd env "git" ["push"; push_url (fst (token_res env)) (ev_fullRepoName ev)] ;;
             (if Nat.eqb (String.length stdErr) 0 then ret tt else log_printf stdErr) ;;
             match err with
             | Some e => ret (Some ("failed to push to " ++ Quote (push_url (fst (token_res env)) (ev_fullRepoName ev)) ++ ": " ++ e))
             | None =>
               e <- os_Chdir env (cwd st) ;;
               match e with
               | Some e => ret (Some ("failed to change directory back " ++ Quote (cwd st) ++ ": " ++ e))
               | None => ret None
               end
             end
           end
         end
       end end) s2.
Proof.
  intros Hr Hf. unfold fix_ready in Hf.
  apply andb_true_iff in Hf as [Hf Hc]. apply andb_true_iff in Hf as [Hf Hg].
  apply andb_true_iff in Hf as [Hcl Ht].
  unfold TakeRequestedAction. rewrite Hr, String.eqb_refl. cbv zeta.
  unfold bind at 1.
  destruct (cloneRepo_ok env (ev_fullRepoName ev) (ev_installationID ev) (mkGitRef "" (ev_headBranch ev))
              (getTmpDir (ev_fullRepoName ev) buildifierFix) st Hcl) as [H1 _].
  pose proof (cloneRepo_cwd env (ev_fullRepoName ev) (ev_installationID ev) (mkGitRef "" (ev_headBranch ev))
              (getTmpDir (ev_fullRepoName ev) buildifierFix) st) as Hcw.
  destruct (cloneRepo env _ _ _ _ st) as [c s1]. simpl in H1, Hcw. subst c.
  unfold Token. destruct (token_res env) as [tok [te|]]; [discriminate|]. cbn [fst].
  unfold bind at 1, os_Getwd. destruct (getwd_err env); [discriminate|].
  unfold bind at 1, os_Chdir. unfold fix_dir in Hc.
  destruct (chdir_err env (getTmpDir (ev_fullRepoName ev) buildifierFix)); [discriminate|].
  eexists. split; [|rewrite Hcw; reflexivity]. reflexivity.
Qed.

Lemma bind_maybe_log {B} (b : bool) (x : string) (k : unit -> M B) (s : St) :
  exists s', cwd s' = cwd s /\ bind (if b then ret tt else log_printf x) k s = k tt s'.
Proof. destruct b; eexists; split; [| reflexivity | |reflexivity]; reflexivity. Qed.

Lemma bind_log {B} (x : string) (k : unit -> M B) (s : St) :
  exists s', cwd s' = cwd s /\ bind (log_printf x) k s = k tt s'.
Proof. eexists; split; [|reflexivity]; reflexivity. Qed.

(** TakeRequestedAction: a failed checkout returns "failed to checkout branch ..." and leaves the process in the fix directory; a successful fix returns no error and goes back to the starting directory. *)
Theorem take_action_cwd (env : Env) (app : GithubApp) (ev : CheckRunEvent) (st : St) :
  ev_requestedAction ev = buildifierFix -> fix_ready env ev = true ->
  (forall e, runCmd_err env "git" (checkout_args ev) = Some e ->
     fst (TakeRequestedAction env app ev st)
       = Some ("failed to checkout branch " ++ ev_headBranch ev ++ ": " ++ e)
     /\ cwd (snd (TakeRequestedAction env app ev st)) = fix_dir ev)
  /\ (runCmd_err env "git" (checkout_args ev) = None ->
      runCmd_err env "buildifier" (fix_args ev) = None ->
      runCmd_err env "git" commit_args = None ->
      runCmd_err env "git" ["push"; push_url (fst (token_res env)) (ev_fullRepoName ev)] = None ->
      chdir_err env (cwd st) = None ->
      fst (TakeRequestedAction env app ev st) = None
      /\ cwd (snd (TakeRequestedAction env app ev st)) = cwd st).
Proof.
  intros Hr Hf. destruct (Take_prefix env app ev st Hr Hf) as [s2 [Hs ->]].
  rewrite bind_runCmd.
  pose proof (proj1 (proj2 (runCmd_shape env "git" (checkout_args ev) s2))) as C1.
  split.
  - intros e He. rewrite He.
    destruct (bind_maybe_log (Nat.eqb (String.length (stderr (run env "git" (checkout_args ev)))) 0)
               (stderr (run env "git" (checkout_args ev)))
               (fun _ => ret (Some ("failed to checkout branch " ++ ev_headBranch ev ++ ": " ++ e)))
               (snd (runCmd env "git" (checkout_args ev) s2))) as [s3 [C3 ->]].
    split; [reflexivity|]. simpl. congruence.
  - intros E1 E2 E3 E4 E5. rewrite E1.
    match goal with |- context [bind (if ?b then ret tt else log_printf ?x) ?k ?s] =>
      destruct (bind_maybe_log b x k s) as [s3 [C3 ->]] end.
    rewrite bind_runCmd, E2.
    pose proof (proj1 (proj2 (runCmd_shape env "buildifier" (fix_args ev) s3))) as C4.
    match goal with |- context [bind (log_printf ?x) ?k ?s] =>
      destruct (bind_log x k s) as [s5 [C5 ->]] end.
    rewrite bind_runCmd, E3.
    pose proof (proj1 (proj2 (runCmd_shape env "git" commit_args s5))) as C6.
    match goal with |- context [bind (if ?b then ret tt else log_printf ?x) ?k ?s] =>
      destruct (bind_maybe_log b x k s) as [s7 [C7 ->]] end.
    rewrite bind_runCmd, E4.
    match goal with |- context [bind (if ?b then ret tt else log_printf ?x) ?k ?s] =>
      destruct (bind_maybe_log b x k s) as [s8 [C8 ->]] end.
    unfold bind, os_Chdir. rewrite E5. simpl. auto.
Qed.

Lemma Take_push_err (env : Env) (app : GithubApp) (ev : CheckRunEvent) (st : St) (e : string) :
  ev_requestedAction ev = buildifierFix -> fix_ready env ev = true ->
  plain (fst (token_res env)) = true ->
  runCmd_err env "git" (checkout_args ev) = None ->
  runCmd_err env "buildifier" (fix_args ev) = None ->
  runCmd_err env "git" commit_args = None ->
  runCmd_err env "git" ["push"; push_url (fst (token_res env)) (ev_fullRepoName ev)] = Some e ->
  fst (TakeRequestedAction env app ev st)
  = Some ("failed to push to " ++ dq ++ "https://x-access-token:" ++ fst (token_res env) ++ "@github.com/"
          ++ quote_bytes (ev_fullRepoName ev) ++ ".git" ++ dq ++ ": " ++ e).
Proof.
  intros Hr Hf Hp E1 E2 E3 E4. destruct (Take_prefix env app ev st Hr Hf) as [s2 [_ ->]].
  rewrite bind_runCmd, E1.
  match goal with |- context [bind (if ?b then ret tt else log_printf ?x) ?k ?s] =>
    destruct (bind_maybe_log b x k s) as [s3 [_ ->]] end.
  rewrite bind_runCmd, E2.
  match goal with |- context [bind (log_printf ?x) ?k ?s] =>
    destruct (bind_log x k s) as [s5 [_ ->]] end.
  rewrite bind_runCmd, E3.
  match goal with |- context [bind (if ?b then ret tt else log_printf ?x) ?k ?s] =>
    destruct (bind_maybe_log b x k s) as [s7 [_ ->]] end.
  rewrite bind_runCmd, E4.
  match goal with |- context [bind (if ?b then ret tt else log_printf ?x) ?k ?s] =>
    destruct (bind_maybe_log b x k s) as [s8 [_ ->]] end.
  unfold ret, Quote, push_url. cbn [fst]. f_equal.
  rewrite !quote_bytes_app, (quote_bytes_plain _ Hp). rewrite !str_app_assoc. reflexivity.
Qed.

Lemma GetCheckFn_other (env : Env) (c : string) :
  c <> "buildifier" -> c <> "bazel" -> GetCheckFn env c = (None, Some ("checkFn not found for " ++ Quote c)).
Proof.
  intros H1 H2. unfold GetCheckFn.
  destruct (String.eqb_spec c "buildifier"); [contradiction|].
  destruct (String.eqb_spec c "bazel"); [contradiction|]. reflexivity.
Qed.

Lemma InitCheckRun_outcome (env : Env) (app : GithubApp) (ev : CheckRunEvent) (st : St) :
  update_err env (in_progress_opts (ev_checkName ev)) = None ->
  clone_ok env (mkGitRef (ev_headSHA ev) "") = true ->
  exists s1, fst (InitCheckRun env app ev st)
             = fst (InitCheckRun_body env app ev (getTmpDir (ev_fullRepoName ev) (ev_checkName ev)) s1).
Proof.
  intros Hu Hc. destruct (InitCheckRun_after_clone env app ev st Hu Hc) as [s1 [_ ->]].
  exists s1. destruct (InitCheckRun_body _ _ _ _ s1). reflexivity.
Qed.

(** InitCheckRun: an unknown check name gives "checkFn not found for %q"; a buildifier run failing with empty stderr gives "failed to run buildifier: e"; bazel with empty stdout and no runCmd error panics on the nil Result. *)
Theorem init_outcomes (env : Env) (app : GithubApp) (ev : CheckRunEvent) (st : St) :
  let name := ev_checkName ev in
  let dir := getTmpDir (ev_fullRepoName ev) name in
  update_err env (in_progress_opts name) = None ->
  clone_ok env (mkGitRef (ev_headSHA ev) "") = true ->
  (~ In name checks ->
     fst (InitCheckRun env app ev st) = Returned (Some ("checkFn not found for " ++ Quote name)))
  /\ (forall e, name = "buildifier" ->
      String.length (stderr (run env "buildifier" (buildifier_args dir))) = 0 ->
      perr (run env "buildifier" (buildifier_args dir)) = Some e ->
      fst (InitCheckRun env app ev st) = Returned (Some ("failed to run buildifier: " ++ e)))
  /\ (name = "bazel" -> getwd_err env = None -> chdir_err env dir = None ->
      String.length (stdout (run env "bb" (bb_args app))) = 0 ->
      runCmd_err env "bb" (bb_args app) = None ->
      fst (InitCheckRun env app ev st) = Panicked).
Proof.
  intros name dir Hu Hc. destruct (InitCheckRun_outcome env app ev st Hu Hc) as [s1 ->].
  fold name dir. unfold InitCheckRun_body. fold name. split; [|split].
  - intros Hn. rewrite GetCheckFn_other.
    + reflexivity.
    + intros E; apply Hn; rewrite E; left; reflexivity.
    + intros E; apply Hn; rewrite E; right; left; reflexivity.
  - intros e Hn Hl Hp. rewrite Hn. cbn [GetCheckFn String.eqb Ascii.eqb Bool.eqb andb].
    unfold bind at 1. pose proof (checkBuildifier_value env app dir s1) as V. cbv zeta in V.
    rewrite Hl, Hp in V. simpl in V.
    destruct (checkBuildifier env app dir s1) as [[r err] s2]. simpl in V. inversion V. subst.
    reflexivity.
  - intros Hn Hg Hcd Hl He. rewrite Hn. cbn [GetCheckFn String.eqb Ascii.eqb Bool.eqb andb].
    unfold bind at 1. destruct (bazel_empty_stdout env app dir s1 Hg Hcd Hl) as [V _].
    rewrite He in V.
    destruct (checkBazelBuild env app dir s1) as [[r err] s2]. simpl in V. inversion V. subst.
    reflexivity.
Qed.

(** InitCheckRun: when the SHA checkout fails, the error is wrapped twice and the clone directory is not removed. *)
Theorem init_checkout_fail_keeps_clone (env : Env) (app : GithubApp) (ev : CheckRunEvent) (st : St) (e : string) :
  update_err env (in_progress_opts (ev_checkName ev)) = None ->
  snd (token_res env) = None -> clone_err env = None -> worktree_err env = None ->
  ev_headSHA ev <> "" -> checkout_err env = Some e ->
  fst (InitCheckRun env app ev st)
    = Returned (Some ("failed to clone repo: failed to checkout " ++ ev_headSHA ev ++ ": " ++ e))
  /\ In (getTmpDir (ev_fullRepoName ev) (ev_checkName ev)) (fs (snd (InitCheckRun env app ev st))).
Proof.
  intros Hu Ht Hcl Hw Hh Hco. unfold InitCheckRun, cloneRepo, Token.
  unfold in_progress_opts in Hu. unfold_m. rewrite Hu.
  destruct (token_res env) as [tok te]. cbn [snd] in Ht. subst te.
  rewrite Hcl, Hw, Hco. cbn [branch hash].
  destruct (String.eqb_spec (ev_headSHA ev) "") as [E|_]; [contradiction|]. simpl.
  split; [reflexivity|].
  match goal with |- In ?d (if mem ?d ?l then ?l else ?l ++ [?d]) =>
    destruct (mem d l) eqn:E end.
  - apply existsb_exists in E as [x [Hx Ex]]. apply String.eqb_eq in Ex. subst. exact Hx.
  - apply in_or_app. right. left. reflexivity.
Qed.

(** createCompletedUpdateCheckRunOptions: a buildifier Result gives a completed run with no details URL and the fix action exactly when there are annotations; a bazel Result gives no action. *)
Theorem completed_options (env : Env) (app : GithubApp) (dir : string) (st : St) (r : Result) (e : option string) :
  (fst (checkBuildifier env app dir st) = (Some r, e) ->
   createCompletedUpdateCheckRunOptions (Some r) buildifierCheck
   = Some (mkOpts buildifierCheck "completed" (Some (Conclusion r))
             (Some (Title r, Summary r, Annotations r)) None
             (match Annotations r with
              | [] => []
              | _ :: _ => [mkAction "Fix this" "Automatically fix buildifier errors." buildifierFix]
              end)))
  /\ (fst (checkBazelBuild env app dir st) = (Some r, e) ->
      exists o, createCompletedUpdateCheckRunOptions (Some r) nogoCheck = Some o /\ o_actions o = []).
Proof.
  split.
  - intros H. rewrite checkBuildifier_value in H. cbv zeta in H.
    destruct (Nat.eqb _ 0); [destruct (perr _)|]; inversion H; subst;
      unfold buildifier_finish;
      destruct (f_annotations _) as [|a l]; reflexivity.
  - intros H. apply checkBazelBuild_some in H as [-> _].
    eexists. split; [reflexivity|]. unfold bazel_finish.
    destruct (Nat.eqb _ 0); reflexivity.
Qed.

(** HandleWebhook: a request that fails validation or parsing is answered 500 with no state change; a check_run of another app, an unhandled action or event type only logs the payload type and returns. *)
Theorem webhook_ignored (env : Env) (create_err : string -> string -> option string) (app : GithubApp)
    (st : St) :
  let logged p := (Handled, mkSt (cwd st) (fs st) (logs st ++ ["Got webhook payload of type " ++ payload_type p])) in
  (forall e, HandleWebhook env create_err app (inl e) st = (Responded 500 e, st))
  /\ (forall id action ev, id <> appID app ->
        HandleWebhook env create_err app (inr (CheckRunPayload id action ev)) st
        = logged (CheckRunPayload id action ev))
  /\ (forall action ev, ~ In action ["created"; "rerequested"; "requested_action"] ->
        HandleWebhook env create_err app (inr (CheckRunPayload (appID app) action ev)) st
        = logged (CheckRunPayload (appID app) action ev))
  /\ (forall action sha, ~ In action ["requested"; "rerequested"] ->
        HandleWebhook env create_err app (inr (CheckSuitePayload action sha)) st
        = logged (CheckSuitePayload action sha))
  /\ (forall t, HandleWebhook env create_err app (inr (OtherPayload t)) st = logged (OtherPayload t)).
Proof.
  intros logged. split; [|split; [|split; [|split]]].
  - intros e. reflexivity.
  - intros id action ev H. unfold HandleWebhook. unfold_m.
    apply Z.eqb_neq in H. rewrite H. reflexivity.
  - intros action ev H. unfold HandleWebhook. unfold_m. rewrite Z.eqb_refl.
    destruct (String.eqb_spec action "created") as [->|_]; [contradict H; left; reflexivity|].
    destruct (String.eqb_spec action "rerequested") as [->|_]; [contradict H; right; left; reflexivity|].
    destruct (String.eqb_spec action "requested_action") as [->|_]; [contradict H; right; right; left; reflexivity|].
    reflexivity.
  - intros action sha H. unfold HandleWebhook. unfold_m.
    destruct (String.eqb_spec action "requested") as [->|_]; [contradict H; left; reflexivity|].
    destruct (String.eqb_spec action "rerequested") as [->|_]; [contradict H; right; left; reflexivity|].
    reflexivity.
  - intros t. reflexivity.
Qed.

(** HandleWebhook: when the push of the fix action fails, the logged error holds the installation token in clear. *)
Theorem webhook_logs_token (env : Env) (create_err : string -> string -> option string) (app : GithubApp)
    (ev : CheckRunEvent) (st : St) (e : string) :
  ev_requestedAction ev = buildifierFix -> fix_ready env ev = true ->
  plain (fst (token_res env)) = true ->
  runCmd_err env "git" (checkout_args ev) = None ->
  runCmd_err env "buildifier" (fix_args ev) = None ->
  runCmd_err env "git" commit_args = None ->
  runCmd_err env "git" ["push"; push_url (fst (token_res env)) (ev_fullRepoName ev)] = Some e ->
  In ("error handling event: " ++ "failed to push to " ++ dq ++ "https://x-access-token:" ++ fst (token_res env)
        ++ "@github.com/" ++ quote_bytes (ev_fullRepoName ev) ++ ".git" ++ dq ++ ": " ++ e)
     (logs (snd (HandleWebhook env create_err app (inr (CheckRunPayload (appID app) "requested_action" ev)) st))).
Proof.
  intros Hr Hf Hp E1 E2 E3 E4.
  unfold HandleWebhook. unfold bind at 1, log_printf at 1. rewrite Z.eqb_refl. cbn [String.eqb Ascii.eqb Bool.eqb andb].
  unfold bind at 1. unfold bind at 1.
  match goal with |- context [TakeRequestedAction env app ev ?s] =>
    pose proof (Take_push_err env app ev s e Hr Hf Hp E1 E2 E3 E4) as H;
    destruct (TakeRequestedAction env app ev s) as [r s2] end.
  cbn [fst] in H. subst r. unfold ret, bind, log_printf. simpl.
  apply in_or_app. right. left. reflexivity.
Qed.

Lemma break_nl_app (l t : string) : no_nl l = true -> break_nl (l ++ String (ascii_of_nat 10) t) = (l, Some t).
Proof.
  induction l as [|c l IH]; intros H; [reflexivity|].
  unfold no_nl in H. cbn [list_ascii_of_string existsb] in H. apply negb_true_iff, orb_false_iff in H as [Hc Hl].
  cbn [String.append break_nl]. rewrite Hc. rewrite IH; [reflexivity|]. unfold no_nl. now rewrite Hl.
Qed.

Lemma break_nl_len (s p r : string) : break_nl s = (p, Some r) -> String.length s = String.length p + 1 + String.length r.
Proof.
  revert p; induction s as [|c s IH]; intros p H; simpl in H; [discriminate|].
  destruct (Ascii.eqb c _).
  - inversion H; subst. simpl. lia.
  - destruct (break_nl s) as [p' r'] eqn:E. inversion H; subst. simpl. rewrite (IH p' eq_refl). lia.
Qed.

Lemma scan_fuel (f1 f2 : nat) (s : string) :
  String.length s <= f1 -> String.length s <= f2 -> scan_lines_n f1 s = scan_lines_n f2 s.
Proof.
  revert f2 s; induction f1 as [|f1 IH]; intros f2 s H1 H2.
  - destruct s; [destruct f2; reflexivity|simpl in H1; lia].
  - destruct f2 as [|f2]; [destruct s; [reflexivity|simpl in H2; lia]|].
    destruct s as [|c s]; [reflexivity|]. cbn [scan_lines_n].
    destruct (break_nl (String c s)) as [p [r|]] eqn:E; [|reflexivity].
    pose proof (break_nl_len _ _ _ E) as L. simpl in L, H1, H2.
    destruct (Nat.leb _ _); [|reflexivity]. f_equal. apply IH; lia.
Qed.

Lemma dropCR_ok (l : string) : ends_cr l = false -> dropCR l = l.
Proof. unfold ends_cr, dropCR. destruct (rev _) as [|c r]; [reflexivity|]. intros ->. reflexivity. Qed.

Lemma str_app_nil_r (a : string) : a ++ "" = a.
Proof. induction a as [|c a IH]; simpl; [reflexivity|]. now rewrite IH. Qed.

Lemma str_length_app (a b : string) : String.length (a ++ b) = String.length a + String.length b.
Proof. induction a as [|c a IH]; simpl; [reflexivity|]. now rewrite IH. Qed.

Lemma scan_cons (l t : string) :
  no_nl l = true -> ends_cr l = false -> String.length l < MaxScanTokenSize ->
  scan_lines (l ++ nl ++ t) = l :: scan_lines t.
Proof.
  intros H1 H2 H3. unfold scan_lines.
  assert (L : String.length (l ++ nl ++ t) = S (String.length l + String.length t))
    by (rewrite !str_length_app; simpl; lia).
  rewrite L. unfold nl, chr. cbn [scan_lines_n].
  destruct (l ++ String (ascii_of_nat 10) EmptyString ++ t) eqn:Es.
  { destruct l; discriminate. }
  rewrite <- Es. cbn [String.append]. rewrite (break_nl_app _ _ H1).
  assert (M : Nat.leb (String.length l + 1) MaxScanTokenSize = true) by (apply Nat.leb_le; lia).
  rewrite M, (dropCR_ok _ H2). f_equal. apply scan_fuel; lia.
Qed.

Lemma scan_long (l t : string) :
  no_nl l = true -> MaxScanTokenSize <= String.length l -> scan_lines (l ++ nl ++ t) = [].
Proof.
  intros H1 H2. unfold scan_lines.
  assert (L : String.length (l ++ nl ++ t) = S (String.length l + String.length t))
    by (rewrite !str_length_app; simpl; lia).
  rewrite L. unfold nl, chr. cbn [scan_lines_n].
  destruct (l ++ String (ascii_of_nat 10) EmptyString ++ t) eqn:Es.
  { destruct l; discriminate. }
  rewrite <- Es. cbn [String.append]. rewrite (break_nl_app _ _ H1).
  assert (M : Nat.leb (String.length l + 1) MaxScanTokenSize = false) by (apply Nat.leb_gt; lia).
  rewrite M. reflexivity.
Qed.

Lemma lines_text_cons (l : string) (ls : list string) : lines_text (l :: ls) = l ++ nl ++ lines_text ls.
Proof. unfold lines_text. cbn [map String.concat]. destruct ls; simpl; rewrite ?str_app_nil_r, ?str_app_assoc; reflexivity. Qed.

(** The line scanner of checkBuildifier returns the lines of a newline-terminated text; a line of 64 KiB or more stops the scan and drops the rest. *)
Theorem scan_lines_roundtrip (ls : list string) (long rest : string) :
  forallb token_ok ls = true ->
  scan_lines (lines_text ls) = ls
  /\ (no_nl long = true -> MaxScanTokenSize <= String.length long ->
      scan_lines (lines_text ls ++ long ++ nl ++ rest) = ls).
Proof.
  induction ls as [|l ls IH]; intros H.
  - split; [reflexivity|]. intros H1 H2. apply scan_long; assumption.
  - cbn [forallb] in H. apply andb_true_iff in H as [Hl H].
    unfold token_ok in Hl. apply andb_true_iff in Hl as [Hl H3]. apply andb_true_iff in Hl as [H1 H2].
    apply negb_true_iff in H2. apply Nat.ltb_lt in H3.
    destruct (IH H) as [IH1 IH2]. rewrite lines_text_cons. split.
    + rewrite scan_cons by assumption. now rewrite IH1.
    + intros Hn Hm. rewrite !str_app_assoc. rewrite scan_cons by assumption. now rewrite IH2.
Qed.


Lemma ncolons_app (a b : string) : ncolons (a ++ b) = ncolons a + ncolons b.
Proof. unfold ncolons. rewrite la_app, count_occ_app. reflexivity. Qed.

Lemma ncolons_digits (d : string) : digits d -> ncolons d = 0.
Proof.
  induction d as [|c d IH]; intros H; [reflexivity|].
  inversion H as [|x l Hc Hd]; subst. unfold ncolons in *. cbn [list_ascii_of_string count_occ].
  destruct (ascii_dec c colon) as [->|_]; [discriminate|]. apply IH. exact Hd.
Qed.

Lemma span_digits_sound (s d r : string) : span_digits s = (d, r) -> s = d ++ r.
Proof.
  revert d r; induction s as [|c s IH]; intros d r H; simpl in H.
  - inversion H. reflexivity.
  - destruct (is_digit c).
    + destruct (span_digits s) as [d' r'] eqn:E. inversion H; subst. simpl. f_equal. apply IH. reflexivity.
    + inversion H. reflexivity.
Qed.

Lemma span_digits_app (d r : string) :
  digits d -> match r with String c _ => is_digit c = false | EmptyString => True end ->
  span_digits (d ++ r) = (d, r).
Proof.
  induction d as [|c d IH]; intros Hd Hr.
  - destruct r as [|c r]; [reflexivity|]. simpl. now rewrite Hr.
  - inversion Hd as [|x l Hc Hd']; subst. simpl. rewrite Hc, IH by assumption. reflexivity.
Qed.

Lemma take_line_no_nl (s : string) : no_nl s = true -> take_line s = s.
Proof.
  induction s as [|c s IH]; intros H; [reflexivity|].
  unfold no_nl in H. cbn [list_ascii_of_string existsb] in H. apply negb_true_iff, orb_false_iff in H as [Hc Hs].
  simpl. rewrite Hc. rewrite IH; [reflexivity|]. unfold no_nl. now rewrite Hs.
Qed.

Lemma tail_match_sound (s n c m : string) :
  tail_match s = Some (n, c, m) ->
  exists rest, s = ":" ++ n ++ ":" ++ c ++ ":" ++ rest /\ m = take_line rest
    /\ digits n /\ n <> "" /\ digits c /\ c <> "".
Proof.
  unfold tail_match. destruct s as [|c1 r1]; [discriminate|].
  destruct (Ascii.eqb_spec c1 colon) as [->|]; [|discriminate].
  destruct (span_digits r1) as [d1 r2] eqn:E1.
  destruct d1 as [|x d1]; [discriminate|]. destruct r2 as [|c2 r3]; [discriminate|].
  destruct (Ascii.eqb_spec c2 colon) as [->|]; [|discriminate].
  destruct (span_digits r3) as [d2 r4] eqn:E2.
  destruct d2 as [|y d2]; [discriminate|]. destruct r4 as [|c3 r5]; [discriminate|].
  destruct (Ascii.eqb_spec c3 colon) as [->|]; [|discriminate].
  intros H; inversion H; subst. exists r5.
  apply span_digits_sound in E1 as S1. apply span_digits_sound in E2 as S2.
  rewrite S1, S2. split; [reflexivity|]. split; [reflexivity|].
  split; [exact (span_digits_all _ _ _ E1)|]. split; [discriminate|].
  split; [exact (span_digits_all _ _ _ E2)|discriminate].
Qed.

Lemma tail_match_colons (s n c m : string) : tail_match s = Some (n, c, m) -> 3 <= ncolons s.
Proof.
  intros H. destruct (tail_match_sound _ _ _ _ H) as [rest [-> [_ [Hn [_ [Hc _]]]]]].
  rewrite !ncolons_app, (ncolons_digits n Hn), (ncolons_digits c Hc). unfold ncolons at 1 2 3. simpl. lia.
Qed.

Lemma lineCommentMatch_colons (s f n c m : string) : lineCommentMatch s = Some (f, n, c, m) -> 3 <= ncolons s.
Proof.
  revert f n c m; induction s as [|x s IH]; intros f n c m; cbn [lineCommentMatch]; [discriminate|].
  assert (Hle : ncolons s <= ncolons (String x s))
    by (unfold ncolons; cbn [list_ascii_of_string count_occ]; destruct (ascii_dec x colon); lia).
  destruct (Ascii.eqb x (ascii_of_nat 10)).
  - destruct (tail_match (String x s)) as [[[l1 c1] m1]|] eqn:E; [|discriminate].
    intros H; inversion H; subst. exact (tail_match_colons _ _ _ _ E).
  - destruct (lineCommentMatch s) as [[[[f' l'] c'] m']|] eqn:E0.
    + intros _. specialize (IH f' l' c' m' eq_refl). lia.
    + destruct (tail_match (String x s)) as [[[l1 c1] m1]|] eqn:E; [|discriminate].
      intros H; inversion H; subst. exact (tail_match_colons _ _ _ _ E).
Qed.

Lemma no_nl_cons (x : ascii) (s : string) :
  no_nl (String x s) = true -> Ascii.eqb x (ascii_of_nat 10) = false /\ no_nl s = true.
Proof.
  unfold no_nl. cbn [list_ascii_of_string existsb]. intros H.
  apply negb_true_iff, orb_false_iff in H as [H1 H2]. split; [exact H1|]. now rewrite H2.
Qed.

Lemma no_nl_app (a b : string) : no_nl (a ++ b) = no_nl a && no_nl b.
Proof. unfold no_nl. rewrite la_app, existsb_app, negb_orb. reflexivity. Qed.

(** lineCommentMatch: a match splits the line at three colons into a file, two digit runs and a message; conversely such a line whose message has no colon is matched into those four parts. *)
Theorem lineCommentMatch_roundtrip (l f n c m : string) :
  (no_nl l = true -> lineCommentMatch l = Some (f, n, c, m) ->
     l = f ++ ":" ++ n ++ ":" ++ c ++ ":" ++ m /\ digits n /\ n <> "" /\ digits c /\ c <> "")
  /\ (no_nl f = true -> digits n -> n <> "" -> digits c -> c <> "" ->
      no_nl m = true -> ncolons m = 0 ->
      lineCommentMatch (f ++ ":" ++ n ++ ":" ++ c ++ ":" ++ m) = Some (f, n, c, m)).
Proof.
  split.
  - revert f; induction l as [|x l IH]; intros f Hl; cbn [lineCommentMatch]; [discriminate|].
    destruct (no_nl_cons _ _ Hl) as [Hx Hl']. rewrite Hx.
    destruct (lineCommentMatch l) as [[[[f' n'] c'] m']|] eqn:E0.
    + intros H; inversion H; subst.
      destruct (IH f' Hl' eq_refl) as [-> R]. split; [reflexivity|exact R].
    + destruct (tail_match (String x l)) as [[[n1 c1] m1]|] eqn:E; [|discriminate].
      intros H; inversion H; subst.
      destruct (tail_match_sound _ _ _ _ E) as [rest [Es [Em R]]].
      rewrite Es in Hl. rewrite !no_nl_app in Hl. apply andb_true_iff in Hl as [_ Hl].
      repeat (apply andb_true_iff in Hl as [_ Hl]). rewrite Em, take_line_no_nl by exact Hl.
      split; [exact Es|exact R].
  - intros Hf Hn Hn0 Hc Hc0 Hm Hm0.
    assert (Ht : tail_match (":" ++ n ++ ":" ++ c ++ ":" ++ m) = Some (n, c, m)).
    { cbn [String.append]. unfold tail_match.
      change (Ascii.eqb ":"%char colon) with true. cbv iota.
      rewrite span_digits_app by (exact Hn || exact eq_refl).
      destruct n as [|n0 n']; [contradiction|]. cbn [String.append].
      change (Ascii.eqb ":"%char colon) with true. cbv iota.
      rewrite span_digits_app by (exact Hc || exact eq_refl).
      destruct c as [|c0 c']; [contradiction|].
      change (Ascii.eqb ":"%char colon) with true. cbv iota.
      rewrite take_line_no_nl by exact Hm. reflexivity. }
    induction f as [|x f IH].
    + cbn [String.append lineCommentMatch].
      change (Ascii.eqb ":"%char (ascii_of_nat 10)) with false. cbv iota.
      destruct (lineCommentMatch (n ++ ":" ++ c ++ ":" ++ m)) as [[[[a b] d] e]|] eqn:E.
      * apply lineCommentMatch_colons in E.
        rewrite !ncolons_app, (ncolons_digits n Hn), (ncolons_digits c Hc), Hm0 in E.
        unfold ncolons in E. simpl in E. lia.
      * cbn [String.append] in Ht. rewrite Ht.
        cbn [String.append] in E. rewrite E. reflexivity.
    + destruct (no_nl_cons _ _ Hf) as [Hx Hf']. cbn [String.append lineCommentMatch].
      specialize (IH Hf'). cbn [String.append] in IH. rewrite Hx, IH. reflexivity.
Qed.

Lemma in_mkdir (d : string) (l : list string) : In d (if mem d l then l else l ++ [d]).
Proof.
  destruct (mem d l) eqn:E.
  - apply existsb_exists in E as [x [Hx Ex]]. apply String.eqb_eq in Ex. subst. exact Hx.
  - apply in_or_app. right. left. reflexivity.
Qed.

(** cloneRepo: token and clone errors return before anything is created; an up-to-date pull of a branch is no error, another pull error is returned and the directory is left in place. *)
Theorem cloneRepo_errors (env : Env) (n : string) (i : Z) (ref : GitRef) (d : string) (s : St) :
  (forall e, snd (token_res env) = Some e ->
     cloneRepo env n i ref d s = (Some ("failed to get token: " ++ e), s))
  /\ (forall e, snd (token_res env) = None -> clone_err env = Some e ->
     cloneRepo env n i ref d s = (Some ("unable to clone repo to " ++ Quote d ++ ": " ++ e), s))
  /\ (snd (token_res env) = None -> clone_err env = None -> worktree_err env = None ->
      branch ref <> "" ->
      (pull_res env = PullUpToDate -> hash ref = "" -> fst (cloneRepo env n i ref d s) = None)
      /\ (forall e, pull_res env = PullErr e ->
            fst (cloneRepo env n i ref d s) = Some ("failed to pull: " ++ e)
            /\ In d (fs (snd (cloneRepo env n i ref d s))))).
Proof.
  unfold cloneRepo, Token. unfold_m.
  destruct (token_res env) as [tok te]. cbn [snd].
  split; [|split].
  - intros e ->. reflexivity.
  - intros e -> ->. reflexivity.
  - intros -> -> -> Hb. destruct (String.eqb_spec (branch ref) "") as [E|_]; [contradiction|]. simpl.
    split.
    + intros -> Hh. rewrite Hh. reflexivity.
    + intros e ->. simpl. split; [reflexivity|]. apply in_mkdir.
Qed.

Lemma substring_all (s : string) (k : nat) : String.length s <= k -> substring 0 k s = s.
Proof.
  revert k; induction s as [|c s IH]; intros k H; destruct k; simpl in *; try reflexivity; try lia.
  rewrite IH by lia. reflexivity.
Qed.

Lemma substring_app (a b : string) (k : nat) : substring (String.length a) k (a ++ b) = substring 0 k b.
Proof. induction a as [|c a IH]; [reflexivity|]. exact IH. Qed.

Lemma url_at (s u : string) :
  String.prefix url_literal s = true ->
  take_line (substring (String.length url_literal) (String.length s) s) = u -> no_nl s = true ->
  s = url_literal ++ u.
Proof.
  intros Ep Hu Hn. apply prefix_app in Ep as [rest Er]. subst s.
  rewrite substring_app, substring_all in Hu by (rewrite str_length_app; lia).
  rewrite no_nl_app in Hn. apply andb_true_iff in Hn as [_ Hn].
  rewrite take_line_no_nl in Hu by exact Hn. subst u. reflexivity.
Qed.

(** urlMatch: the returned URL is the rest of the line after the first occurrence of the stream literal. *)
Theorem urlMatch_sound (l u : string) :
  urlMatch l = Some u -> no_nl l = true ->
  exists pre, l = pre ++ url_literal ++ u
    /\ (forall p1 p2, pre = p1 ++ p2 -> p2 <> "" -> String.prefix url_literal (p2 ++ url_literal ++ u) = false).
Proof.
  induction l as [|x l IH]; intros H Hn; [discriminate|].
  change (urlMatch (String x l)) with
    (if String.prefix url_literal (String x l)
     then Some (take_line (substring (String.length url_literal) (String.length (String x l)) (String x l)))
     else urlMatch l) in H.
  destruct (String.prefix url_literal (String x l)) eqn:Ep.
  - injection H as Hu. exists "". split; [exact (url_at _ _ Ep Hu Hn)|].
    intros p1 p2 E Hp. destruct p1; [|discriminate]. simpl in E. subst. contradiction.
  - destruct (no_nl_cons _ _ Hn) as [_ Hn'].
    destruct (IH H Hn') as [pre [-> Hpre]]. exists (String x pre). split; [reflexivity|].
    intros p1 p2 E Hp. destruct p1 as [|y p1].
    + simpl in E. subst p2. exact Ep.
    + injection E as <- E. exact (Hpre p1 p2 E Hp).
Qed.

Lemma tmp_dirs_distinct_witness :
  getTmpDir "o/r" "buildifier" <> getTmpDir "o/r" "bazel"
  /\ NoDup (map (getTmpDir "o/r") (buildifierFix :: checks)).
Proof.
  split.
  - apply (proj1 (tmp_dirs_distinct "o/r" "buildifier" "bazel")). discriminate.
  - exact (proj2 (tmp_dirs_distinct "o/r" "buildifier" "bazel")).
Defined.

Lemma checks_have_runners_witness :
  (snd (GetCheckFn envF "bazel") = None /\ fst (GetCheckFn envF "bazel") <> None)
  /\ GetCheckFn envF buildifierFix = (None, Some ("checkFn not found for " ++ Quote buildifierFix)).
Proof.
  split.
  - apply (proj1 (checks_have_runners envF) "bazel"). simpl. right. left. reflexivity.
  - apply (proj2 (checks_have_runners envF) buildifierFix). simpl. intros [H|[H|[]]]; discriminate.
Defined.

Lemma checkBazelBuild_cwd_witness :
  (fst (checkBazelBuild (env_ok (fun _ _ => mkProc "" "" None)) app0 "/tmp/r" st0) = (None, None)
   /\ cwd (snd (checkBazelBuild (env_ok (fun _ _ => mkProc "" "" None)) app0 "/tmp/r" st0)) = "/tmp/r")
  /\ cwd (snd (checkBazelBuild envB app0 "/tmp/r" st0)) = "/srv".
Proof.
  split.
  - apply (proj1 (checkBazelBuild_cwd (env_ok (fun _ _ => mkProc "" "" None)) app0 "/tmp/r" st0));
      vm_compute; reflexivity.
  - apply (proj2 (checkBazelBuild_cwd envB app0 "/tmp/r" st0) rB None). vm_compute. reflexivity.
Defined.

Lemma bb_key_logged_witness :
  In ("check failed for cmd " ++ dq ++ "/usr/bin/bb build //... --remote_header=x-buildbuddy-api-key="
        ++ "key" ++ dq ++ ": " ++ "exit status 1")
     (logs (snd (checkBazelBuild (env_ok (fun _ _ => mkProc "" "" (Some "exit status 1"))) app0 "/tmp/r" st0))).
Proof.
  apply (bb_key_logged (env_ok (fun _ _ => mkProc "" "" (Some "exit status 1"))) app0 "/tmp/r" st0 "exit status 1");
    vm_compute; reflexivity.
Defined.

Lemma take_action_cwd_witness :
  (fst (TakeRequestedAction (env_ok (run_fail ("git" :: checkout_args ev0) "no such branch")) app0 ev0 st0)
     = Some ("failed to checkout branch main: no such branch")
   /\ cwd (snd (TakeRequestedAction (env_ok (run_fail ("git" :: checkout_args ev0) "no such branch")) app0 ev0 st0))
     = fix_dir ev0)
  /\ (fst (TakeRequestedAction (env_ok (fun _ _ => mkProc "" "" None)) app0 ev0 st0) = None
      /\ cwd (snd (TakeRequestedAction (env_ok (fun _ _ => mkProc "" "" None)) app0 ev0 st0)) = "/srv").
Proof.
  split.
  - apply (proj1 (take_action_cwd (env_ok (run_fail ("git" :: checkout_args ev0) "no such branch")) app0 ev0 st0
                   eq_refl ltac:(vm_compute; reflexivity))).
    vm_compute. reflexivity.
  - apply (proj2 (take_action_cwd (env_ok (fun _ _ => mkProc "" "" None)) app0 ev0 st0
                   eq_refl ltac:(vm_compute; reflexivity)));
      vm_compute; reflexivity.
Defined.

Lemma webhook_logs_token_witness :
  In ("error handling event: " ++ "failed to push to " ++ dq ++ "https://x-access-token:" ++ "tok"
        ++ "@github.com/" ++ quote_bytes "o/r" ++ ".git" ++ dq ++ ": " ++ "denied")
     (logs (snd (HandleWebhook (env_ok (run_fail ["git"; "push"; push_url "tok" "o/r"] "denied"))
                  (fun _ _ => None) app0 (inr (CheckRunPayload (appID app0) "requested_action" ev0)) st0))).
Proof.
  apply (webhook_logs_token (env_ok (run_fail ["git"; "push"; push_url "tok" "o/r"] "denied"))
           (fun _ _ => None) app0 ev0 st0 "denied");
    vm_compute; reflexivity.
Defined.

Lemma init_outcomes_witness :
  fst (InitCheckRun (env_ok (fun _ _ => mkProc "" "" None)) app0 (ev_named "lint") st0)
    = Returned (Some ("checkFn not found for " ++ Quote "lint"))
  /\ fst (InitCheckRun (env_ok (fun _ _ => mkProc "" "" (Some "exit status 127"))) app0 (ev_named "buildifier") st0)
    = Returned (Some ("failed to run buildifier: " ++ "exit status 127"))
  /\ fst (InitCheckRun (env_ok (fun _ _ => mkProc "" "" None)) app0 (ev_named "bazel") st0) = Panicked.
Proof.
  split; [|split].
  - apply (proj1 (init_outcomes (env_ok (fun _ _ => mkProc "" "" None)) app0 (ev_named "lint") st0
                   eq_refl eq_refl)).
    simpl. intros [H|[H|[]]]; discriminate.
  - apply (proj1 (proj2 (init_outcomes (env_ok (fun _ _ => mkProc "" "" (Some "exit status 127")))
                   app0 (ev_named "buildifier") st0 eq_refl eq_refl)));
      vm_compute; reflexivity.
  - apply (proj2 (proj2 (init_outcomes (env_ok (fun _ _ => mkProc "" "" None)) app0 (ev_named "bazel") st0
                   eq_refl eq_refl)));
      vm_compute; reflexivity.
Defined.

Lemma init_checkout_fail_keeps_clone_witness :
  let env := mkEnv (fun _ _ => mkProc "" "" None) None (fun _ => None) (fun _ => None) ("tok", None)
               (fun _ => None) None None PullOk (Some "reference not found")
               (fun t => Some ("/usr/bin/" ++ t)) in
  fst (InitCheckRun env app0 ev0 st0)
    = Returned (Some ("failed to clone repo: failed to checkout 0123abcd: reference not found"))
  /\ In "/tmp/o/r/buildifier" (fs (snd (InitCheckRun env app0 ev0 st0))).
Proof.
  intros env.
  apply (init_checkout_fail_keeps_clone env app0 ev0 st0 "reference not found");
    (reflexivity || discriminate).
Defined.

Lemma completed_options_witness :
  createCompletedUpdateCheckRunOptions (Some rF) buildifierCheck
  = Some (mkOpts buildifierCheck "completed" (Some (Conclusion rF))
            (Some (Title rF, Summary rF, Annotations rF)) None
            (match Annotations rF with
             | [] => []
             | _ :: _ => [mkAction "Fix this" "Automatically fix buildifier errors." buildifierFix]
             end))
  /\ exists o, createCompletedUpdateCheckRunOptions (Some rB) nogoCheck = Some o /\ o_actions o = [].
Proof.
  split.
  - apply (proj1 (completed_options envF app0 "/tmp/r" st0 rF None)). vm_compute. reflexivity.
  - apply (proj2 (completed_options envB app0 "/tmp/r" st0 rB None)). vm_compute. reflexivity.
Defined.

Lemma webhook_ignored_witness :
  HandleWebhook envF (fun _ _ => None) app0 (inr (CheckRunPayload 2%Z "created" ev0)) st0
  = (Handled, mkSt "/srv" [] ["Got webhook payload of type *github.CheckRunEvent"])
  /\ HandleWebhook envF (fun _ _ => None) app0 (inr (CheckSuitePayload "completed" "0123abcd")) st0
  = (Handled, mkSt "/srv" [] ["Got webhook payload of type *github.CheckSuiteEvent"]).
Proof.
  split.
  - apply (proj1 (proj2 (webhook_ignored envF (fun _ _ => None) app0 st0)) 2%Z "created" ev0). discriminate.
  - apply (proj1 (proj2 (proj2 (proj2 (webhook_ignored envF (fun _ _ => None) app0 st0)))) "completed" "0123abcd").
    simpl. intros [H|[H|[]]]; discriminate.
Defined.

Lemma scan_lines_roundtrip_witness :
  scan_lines (lines_text ["a"; "b"]) = ["a"; "b"]
  /\ scan_lines (lines_text ["a"; "b"] ++ long_line ++ nl ++ "c" ++ nl) = ["a"; "b"].
Proof.
  destruct (scan_lines_roundtrip ["a"; "b"] long_line ("c" ++ nl) ltac:(vm_compute; reflexivity)) as [H1 H2].
  split; [exact H1|]. apply H2; [vm_compute; reflexivity|]. apply Nat.leb_le. vm_compute. reflexivity.
Defined.

Lemma lineCommentMatch_roundtrip_witness :
  ("pkg/BUILD:12:3: undeclared dependency" = "pkg/BUILD" ++ ":" ++ "12" ++ ":" ++ "3" ++ ":" ++ " undeclared dependency"
   /\ digits "12" /\ "12" <> "" /\ digits "3" /\ "3" <> "")
  /\ lineCommentMatch ("C:/src/BUILD" ++ ":" ++ "7" ++ ":" ++ "10" ++ ":" ++ " x")
     = Some ("C:/src/BUILD", "7", "10", " x").
Proof.
  split.
  - apply (proj1 (lineCommentMatch_roundtrip "pkg/BUILD:12:3: undeclared dependency"
                    "pkg/BUILD" "12" "3" " undeclared dependency")); vm_compute; reflexivity.
  - apply (proj2 (lineCommentMatch_roundtrip "" "C:/src/BUILD" "7" "10" " x"));
      (vm_compute; reflexivity) || (repeat constructor) || discriminate.
Defined.

Lemma cloneRepo_errors_witness :
  let env := mkEnv (fun _ _ => mkProc "" "" None) None (fun _ => None) (fun _ => None) ("tok", None)
               (fun _ => None) None None (PullErr "non-fast-forward update") None
               (fun t => Some ("/usr/bin/" ++ t)) in
  cloneRepo (mkEnv (fun _ _ => mkProc "" "" None) None (fun _ => None) (fun _ => None) ("", Some "401 Bad credentials")
               (fun _ => None) None None PullOk None (fun t => Some ("/usr/bin/" ++ t))) "o/r" 42 (mkGitRef "" "main") "/tmp/o/r/buildifier-fix" st0
    = (Some ("failed to get token: " ++ "401 Bad credentials"), st0)
  /\ fst (cloneRepo env "o/r" 42 (mkGitRef "" "main") "/tmp/o/r/buildifier-fix" st0)
     = Some ("failed to pull: " ++ "non-fast-forward update")
  /\ In "/tmp/o/r/buildifier-fix" (fs (snd (cloneRepo env "o/r" 42 (mkGitRef "" "main") "/tmp/o/r/buildifier-fix" st0))).
Proof.
  intros env. split.
  - apply (proj1 (cloneRepo_errors (mkEnv (fun _ _ => mkProc "" "" None) None (fun _ => None) (fun _ => None)
             ("", Some "401 Bad credentials") (fun _ => None) None None PullOk None
             (fun t => Some ("/usr/bin/" ++ t)))
             "o/r" 42 (mkGitRef "" "main") "/tmp/o/r/buildifier-fix" st0)).
    reflexivity.
  - apply (proj2 (proj2 (proj2 (cloneRepo_errors env "o/r" 42 (mkGitRef "" "main") "/tmp/o/r/buildifier-fix" st0))
             eq_refl eq_refl eq_refl ltac:(discriminate))).
    reflexivity.
Defined.

Lemma urlMatch_sound_witness :
  exists pre, "INFO: Streaming build results to: https://x/y" = pre ++ url_literal ++ "https://x/y"
    /\ (forall p1 p2, pre = p1 ++ p2 -> p2 <> "" ->
          String.prefix url_literal (p2 ++ url_literal ++ "https://x/y") = false).
Proof.
  apply (urlMatch_sound "INFO: Streaming build results to: https://x/y" "https://x/y");
    vm_compute; reflexivity.
Defined.

(** CreateCheckRuns, through HandleWebhook: a requested or rerequested check suite creates the runs of [checks] in order, logging each; the first creation error stops the loop and is logged as the handling error. *)
Theorem check_suite_creates_runs (env : Env) (create_err : string -> string -> option string) (app : GithubApp)
    (action sha : string) (st : St) :
  In action ["requested"; "rerequested"] ->
  let hd := "Got webhook payload of type *github.CheckSuiteEvent" in
  let res := HandleWebhook env create_err app (inr (CheckSuitePayload action sha)) st in
  (create_err "buildifier" sha = None -> create_err "bazel" sha = None ->
     res = (Handled, mkSt (cwd st) (fs st)
                       (logs st ++ [hd; "checkRun created: buildifier"; "checkRun created: bazel"])))
  /\ (forall e, create_err "buildifier" sha = Some e ->
     res = (Handled, mkSt (cwd st) (fs st) (logs st ++ [hd; "error handling event: " ++ e])))
  /\ (forall e, create_err "buildifier" sha = None -> create_err "bazel" sha = Some e ->
     res = (Handled, mkSt (cwd st) (fs st)
                       (logs st ++ [hd; "checkRun created: buildifier"; "error handling event: " ++ e]))).
Proof.
  intros Ha hd res. subst hd res.
  assert (Hb : (String.eqb action "requested" || String.eqb action "rerequested")%bool = true)
    by (destruct Ha as [<-|[<-|[]]]; reflexivity).
  destruct st as [c f l].
  unfold HandleWebhook, CreateCheckRuns, checks; cbn [create_loop payload_type].
  unfold bind, ret, log_printf; rewrite Hb; cbn.
  split; [|split].
  - intros -> ->. cbn. rewrite <- !app_assoc. reflexivity.
  - intros e ->. cbn. rewrite <- !app_assoc. reflexivity.
  - intros e -> ->. cbn. rewrite <- !app_assoc. reflexivity.
Qed.

Lemma check_suite_creates_runs_witness :
  HandleWebhook (env_ok (fun _ _ => mkProc "" "" None)) (fun n _ => if String.eqb n "bazel" then Some "422 Unprocessable" else None) app0
    (inr (CheckSuitePayload "requested" "0123abcd")) st0
  = (Handled, mkSt "/srv" [] ["Got webhook payload of type *github.CheckSuiteEvent";
                              "checkRun created: buildifier"; "error handling event: 422 Unprocessable"]).
Proof.
  apply (proj2 (proj2 (check_suite_creates_runs (env_ok (fun _ _ => mkProc "" "" None))
           (fun n _ => if String.eqb n "bazel" then Some "422 Unprocessable" else None) app0
           "requested" "0123abcd" st0 ltac:(simpl; tauto)))); reflexivity.
Defined.
